(** * Nextcloud protocol client: a shallow embedding of [nextcloud.py]

    The development follows the [NextcloudClient] class: the text helpers
    the client relies on (Python [str] methods), the element trees that
    [lxml.etree] hands back, the HTTP session, and then the client methods
    themselves, written in an exception/state monad.

    Text is modelled by [string]: a sequence of 7-bit characters.  The case
    maps, the white-space class and the line boundaries below are Python's
    restricted to that range; characters above 127 are carried through
    unchanged by every helper. *)

From Stdlib Require Import ZArith Ascii String List Bool Lia.
From Stdlib Require Import DecimalString Sorting.Sorted Sorting.Permutation.
From stdpp Require Import base gmap strings list.

Import ListNotations.
Set Warnings "-register-all".

(* stdpp keeps [String.append] folded; the proofs below compute with it. *)
#[local] Arguments String.append !_ _ : simpl nomatch.
Local Open Scope string_scope.
Local Open Scope Z_scope.

(** ** Python [str] methods *)

Module PyStr.

Definition LF : ascii := ascii_of_nat 10.
Definition CR : ascii := ascii_of_nat 13.

Definition code (c : ascii) : nat := nat_of_ascii c.

Definition is_upper (c : ascii) : bool :=
  (Nat.leb 65 (code c) && Nat.leb (code c) 90)%bool.

Definition is_lower (c : ascii) : bool :=
  (Nat.leb 97 (code c) && Nat.leb (code c) 122)%bool.

Definition is_alpha (c : ascii) : bool := (is_upper c || is_lower c)%bool.

Definition lower_char (c : ascii) : ascii :=
  if is_upper c then ascii_of_nat (code c + 32) else c.

Definition upper_char (c : ascii) : ascii :=
  if is_lower c then ascii_of_nat (code c - 32) else c.

Fixpoint map_chars (f : ascii -> ascii) (s : string) : string :=
  match s with
  | EmptyString => EmptyString
  | String c s' => String (f c) (map_chars f s')
  end.

(** [s.lower()] and [s.upper()]. *)
Definition lower : string -> string := map_chars lower_char.
Definition upper : string -> string := map_chars upper_char.

(** [str.isspace] on one character: TAB, LF, VT, FF, CR, FS, GS, RS, US
    and the space. *)
Definition is_space (c : ascii) : bool :=
  ((Nat.leb 9 (code c) && Nat.leb (code c) 13)
   || (Nat.leb 28 (code c) && Nat.leb (code c) 32))%bool.

(** The characters [str.splitlines] breaks a line at (CR LF counts once). *)
Definition is_linebreak (c : ascii) : bool :=
  ((Nat.leb 10 (code c) && Nat.leb (code c) 13)
   || (Nat.leb 28 (code c) && Nat.leb (code c) 30))%bool.

Definition is_empty (s : string) : bool :=
  match s with EmptyString => true | _ => false end.

(** Python truthiness of a [str]. *)
Definition truthy (s : string) : bool := negb (is_empty s).

Fixpoint lstrip_by (p : ascii -> bool) (s : string) : string :=
  match s with
  | EmptyString => EmptyString
  | String c s' => if p c then lstrip_by p s' else s
  end.

Fixpoint rstrip_by (p : ascii -> bool) (s : string) : string :=
  match s with
  | EmptyString => EmptyString
  | String c s' =>
      let r := rstrip_by p s' in
      if (is_empty r && p c)%bool then EmptyString else String c r
  end.

(** [s.strip()], [s.lstrip(c)], [s.rstrip(c)]. *)
Definition strip (s : string) : string := rstrip_by is_space (lstrip_by is_space s).
Definition lstrip_char (c : ascii) : string -> string := lstrip_by (Ascii.eqb c).
Definition rstrip_char (c : ascii) : string -> string := rstrip_by (Ascii.eqb c).

Fixpoint drop (n : nat) (s : string) : string :=
  match n, s with
  | O, _ => s
  | S n', String _ s' => drop n' s'
  | S _, EmptyString => EmptyString
  end.

(** [s.startswith(p)] is [String.prefix p s]; [s.endswith(p)]: *)
Definition endswith (s suffix : string) : bool :=
  String.prefix (String.rev suffix) (String.rev s).

(** [c in s] for one character. *)
Fixpoint occurs (c : ascii) (s : string) : bool :=
  match s with
  | EmptyString => false
  | String a s' => (Ascii.eqb a c || occurs c s')%bool
  end.

(** [sub in s]. *)
Fixpoint contains (sub s : string) : bool :=
  match s with
  | EmptyString => is_empty sub
  | String _ s' => (String.prefix sub s || contains sub s')%bool
  end.

(** [s.replace(old, new)] for a non-empty [old]: occurrences are replaced
    from the left and do not overlap.  [skip] counts the characters of a
    replaced occurrence still to be passed over. *)
Fixpoint replace_go (old new : string) (skip : nat) (s : string) : string :=
  match s with
  | EmptyString => EmptyString
  | String c s' =>
      match skip with
      | S k => replace_go old new k s'
      | O =>
          if String.prefix old s
          then new ++ replace_go old new (String.length old - 1) s'
          else String c (replace_go old new 0 s')
      end
  end.

Definition replace (old new s : string) : string := replace_go old new 0 s.

(** [s.split(c)] for a one-character separator: never empty. *)
Fixpoint split (c : ascii) (s : string) : list string :=
  match s with
  | EmptyString => [EmptyString]
  | String a s' =>
      if Ascii.eqb a c then EmptyString :: split c s'
      else match split c s' with
           | l :: ls => String a l :: ls
           | [] => [String a EmptyString]
           end
  end.

(** [s.split(c, 1)] when [c in s]: the text before and after the first
    [c]; [None] when [c] does not occur. *)
Fixpoint split_once (c : ascii) (s : string) : option (string * string) :=
  match s with
  | EmptyString => None
  | String a s' =>
      if Ascii.eqb a c then Some (EmptyString, s')
      else match split_once c s' with
           | Some (k, v) => Some (String a k, v)
           | None => None
           end
  end.

(** [sep.join(parts)]. *)
Definition join (sep : string) (parts : list string) : string :=
  String.concat sep parts.

(** Lines as [re.split] on line boundaries would give them: the last
    element is the text after the last boundary. *)
Fixpoint split_lines (after_cr : bool) (s : string) : list string :=
  match s with
  | EmptyString => [EmptyString]
  | String c s' =>
      if (after_cr && Ascii.eqb c LF)%bool then split_lines false s'
      else if is_linebreak c then EmptyString :: split_lines (Ascii.eqb c CR) s'
      else match split_lines false s' with
           | l :: ls => String c l :: ls
           | [] => [String c EmptyString]
           end
  end.

Definition drop_last_empty (ls : list string) : list string :=
  match List.rev ls with
  | EmptyString :: r => List.rev r
  | _ => ls
  end.

(** [s.splitlines()]: no empty line is reported after a final boundary. *)
Definition splitlines (s : string) : list string :=
  drop_last_empty (split_lines false s).

(** [os.path.basename(p)]: what follows the last slash. *)
Definition basename (p : string) : string :=
  List.last (split "/"%char p) EmptyString.

(** [s.title()]: a letter that follows a letter is lowered, any other
    letter is raised. *)
Fixpoint title_go (prev_cased : bool) (s : string) : string :=
  match s with
  | EmptyString => EmptyString
  | String c s' =>
      if is_alpha c
      then String (if prev_cased then lower_char c else upper_char c) (title_go true s')
      else String c (title_go false s')
  end.

Definition title : string -> string := title_go false.

(** [str(n)] for an [int]. *)
Definition of_Z (n : Z) : string := NilZero.string_of_int (Z.to_int n).





End PyStr.

Import PyStr.

(** ** Element trees ([lxml.etree]) *)

Module Xml.

(** An element: its qualified tag ([{namespace}local]), its [.text]
    ([None] for an element without text) and its child elements. *)
Inductive element : Type :=
| Element (tag : string) (text : option string) (children : list element).

Definition tag (e : element) : string :=
  match e with Element t _ _ => t end.

Definition text (e : element) : option string :=
  match e with Element _ t _ => t end.

Definition children (e : element) : list element :=
  match e with Element _ _ cs => cs end.

Definition has_tag (path : string) (e : element) : bool := String.eqb (tag e) path.

(** [e.find(path)] and [e.findall(path)] for a path that is one tag: the
    first, respectively every, direct child with that tag. *)
Definition find (path : string) (e : element) : option element :=
  List.find (has_tag path) (children e).

Definition findall (path : string) (e : element) : list element :=
  List.filter (has_tag path) (children e).

End Xml.

Import Xml.

(** ** Decoded JSON bodies *)

Inductive json : Type :=
| JNull
| JBool (b : bool)
| JInt (n : Z)
| JStr (s : string)
| JList (items : list json)
| JDict (fields : list (string * json)).

(** A Python [dict] with [str] keys, in insertion order. *)
Definition dict_get {A : Type} (k : string) (d : list (string * A)) : option A :=
  match List.find (fun kv => String.eqb (fst kv) k) d with
  | Some kv => Some (snd kv)
  | None => None
  end.

Definition dict_has {A : Type} (k : string) (d : list (string * A)) : bool :=
  match dict_get k d with Some _ => true | None => false end.

(** [d[k] = v]: the value is replaced where [k] is held, and [k] is added
    at the end otherwise. *)
Fixpoint dict_set {A : Type} (k : string) (v : A) (d : list (string * A)) : list (string * A) :=
  match d with
  | [] => [(k, v)]
  | (k', v') :: d' =>
      if String.eqb k' k then (k', v) :: d' else (k', v') :: dict_set k v d'
  end.

(** ** Exceptions *)

Inductive exc_class : Type :=
| HTTPError | ConnectionError | XMLSyntaxError | JSONDecodeError
| AttributeError | TypeError | KeyError | ValueError.

(** A raised exception: its class and what [str(e)] prints. *)
Record exn : Type := Exn { exn_class : exc_class; exn_str : string }.

Inductive outcome (A : Type) : Type :=
| Returned (a : A)
| Raised (e : exn).

Arguments Returned {A} a.
Arguments Raised {A} e.

Definition bind {A B : Type} (m : outcome A) (f : A -> outcome B) : outcome B :=
  match m with
  | Returned a => f a
  | Raised e => Raised e
  end.

Notation "x <- m ;; k" := (bind m (fun x => k))
  (at level 20, m at level 99, k at level 200, right associativity).
Notation "' pat <- m ;; k" := (bind m (fun x => match x with pat => k end))
  (at level 20, pat pattern, m at level 99, k at level 200, right associativity).

(** [for x in xs: ys.append(f(x))], stopping at the first exception. *)
Fixpoint for_each {A B : Type} (f : A -> outcome B) (xs : list A) : outcome (list B) :=
  match xs with
  | [] => Returned []
  | x :: xs' =>
      match f x with
      | Returned y =>
          match for_each f xs' with
          | Returned ys => Returned (y :: ys)
          | Raised e => Raised e
          end
      | Raised e => Raised e
      end
  end.

Definition none_has_no_attribute (attr : string) : exn :=
  Exn AttributeError ("'NoneType' object has no attribute '" ++ attr ++ "'").

(** [x.text] where [x] is the result of a [find]. *)
Definition text_of (x : option element) : outcome (option string) :=
  match x with
  | Some e => Returned (text e)
  | None => Raised (none_has_no_attribute "text")
  end.

(** [x.find(path)] where [x] is itself the result of a [find]. *)
Definition find_in (path : string) (x : option element) : outcome (option element) :=
  match x with
  | Some e => Returned (find path e)
  | None => Raised (none_has_no_attribute "find")
  end.

(** ** HTTP *)

Record http_request : Type := Request {
  req_method : string;
  req_url : string;
  req_headers : list (string * string);
  req_data : option string;
  req_json : option (list (string * json))
}.

Record response : Type := Response {
  status_code : Z;
  reason : string;
  url : string;
  content : string;
  text_body : string
}.

(** [response.raise_for_status()]. *)
Definition raise_for_status (r : response) : outcome unit :=
  if (400 <=? status_code r) && (status_code r <? 500) then
    Raised (Exn HTTPError (of_Z (status_code r) ++ " Client Error: " ++ reason r
                           ++ " for url: " ++ url r))
  else if (500 <=? status_code r) && (status_code r <? 600) then
    Raised (Exn HTTPError (of_Z (status_code r) ++ " Server Error: " ++ reason r
                           ++ " for url: " ++ url r))
  else Returned tt.

(** What the client takes from outside: the server behind the
    [requests.Session] (a request is answered, or fails with an exception,
    and the server moves on), the XML and JSON decoders, the URL helpers of
    [urllib.parse], and [str()] on a decoded JSON value. *)
Class Platform : Type := {
  world : Type;
  session_request : http_request -> world -> outcome response * world;
  etree_fromstring : string -> outcome element;
  json_loads : string -> outcome json;
  urljoin : string -> string -> string;
  quote : string -> string;
  unquote : string -> string;
  py_str : json -> string
}.

(** Computations that talk to the server. *)
Definition io `{Platform} (A : Type) : Type := world -> outcome A * world.

Definition ret `{Platform} {A : Type} (a : A) : io A := fun w => (Returned a, w).

Definition io_bind `{Platform} {A B : Type} (m : io A) (f : A -> io B) : io B :=
  fun w =>
    match m w with
    | (Returned a, w') => f a w'
    | (Raised e, w') => (Raised e, w')
    end.

Notation "x <~ m ;; k" := (io_bind m (fun x => k))
  (at level 20, m at level 99, k at level 200, right associativity).

Definition lift `{Platform} {A : Type} (o : outcome A) : io A := fun w => (o, w).

Definition raise `{Platform} {A : Type} (e : exn) : io A := lift (Raised e).

(** [try: body / except Exception as e: handler(e)]. *)
Definition try_except `{Platform} {A : Type} (body : io A) (handler : exn -> io A) : io A :=
  fun w =>
    match body w with
    | (Returned a, w') => (Returned a, w')
    | (Raised e, w') => handler e w'
    end.

(** [response.json()]. *)
Definition response_json `{Platform} (r : response) : outcome json :=
  json_loads (text_body r).

(** Python values that may be [None], as an f-string prints them. *)
Definition fmt (o : option string) : string :=
  match o with Some s => s | None => "None" end.

(** [a[start:stop]] on a list, for any two integers. *)
Definition slice_index (n i : Z) : Z :=
  if i <? 0 then Z.max (i + n) 0 else Z.min i n.

Definition py_slice {A : Type} (l : list A) (start stop : Z) : list A :=
  let n := Z.of_nat (List.length l) in
  let s := slice_index n start in
  let e := slice_index n stop in
  firstn (Z.to_nat (e - s)) (skipn (Z.to_nat s) l).

(** [l.sort(key=key)]: the stable sort by [key], strings compared as
    Python compares them (character by character, shorter first). *)
Fixpoint insert_by {A : Type} (key : A -> string) (x : A) (l : list A) : list A :=
  match l with
  | [] => [x]
  | y :: l' =>
      if String.leb (key x) (key y) then x :: y :: l'
      else y :: insert_by key x l'
  end.

Fixpoint sort_by {A : Type} (key : A -> string) (l : list A) : list A :=
  match l with
  | [] => []
  | x :: l' => insert_by key x (sort_by key l')
  end.

(** ** The client *)

(** What [NextcloudClient.__init__] stores: [base] is [url.rstrip('/') + '/']. *)
Record client : Type := Client {
  base : string;
  username : string;
  password : string
}.

Definition new_client (url username password : string) : client :=
  Client (rstrip_char "/"%char url ++ "/") username password.

(** A file of a WebDAV listing. *)
Record file_entry : Type := FileEntry {
  fe_name : option string;
  fe_href : string;
  fe_is_directory : bool;
  fe_size : option string
}.

(** A calendar or an address book. *)
Record collection : Type := Collection {
  col_name : option string;
  col_href : option string
}.

Record calendar_event : Type := CalendarEvent {
  ev_summary : string;
  ev_dtstart : string;
  ev_href : option string
}.

(** The dict [list_contacts_raw] returns on success. *)
Record contacts_page : Type := ContactsPage {
  contacts : list (gmap string string);
  total : Z
}.

Definition DAV (local : string) : string := "{DAV:}" ++ local.
Definition CALDAV (local : string) : string := "{urn:ietf:params:xml:ns:caldav}" ++ local.
Definition CARDDAV (local : string) : string := "{urn:ietf:params:xml:ns:carddav}" ++ local.

Definition depth_1 : list (string * string) := [("Depth", "1")].

Definition xml_headers : list (string * string) :=
  [("Depth", "1"); ("Content-Type", "application/xml; charset=utf-8")].

(** [unquote(href)]; [None] is not text. *)
Definition unquote_href `{Platform} (href : option string) : outcome string :=
  match href with
  | Some h => Returned (unquote h)
  | None => Raised (Exn TypeError "argument of type 'NoneType' is not iterable")
  end.

(** [os.path.basename(href)] on what may be [None]. *)
Definition basename_of (href : option string) : outcome string :=
  match href with
  | Some h => Returned (basename h)
  | None => Raised (Exn TypeError "expected str, bytes or os.PathLike object, not NoneType")
  end.

(** [os.path.basename(href.rstrip('/'))] on what may be [None]. *)
Definition last_segment (href : option string) : outcome string :=
  match href with
  | Some h => Returned (basename (rstrip_char "/"%char h))
  | None => Raised (none_has_no_attribute "rstrip")
  end.

(** [resourcetype is not None and resourcetype.find(marker) is not None]. *)
Definition has_marker (marker : string) (resourcetype : option element) : bool :=
  match resourcetype with
  | Some rt => match find marker rt with Some _ => true | None => false end
  | None => false
  end.

(** One [{DAV:}response] of a file listing, as the loop body of
    [list_files] and [list_files_raw] reads it. *)
Definition file_item `{Platform} (response_elem : element) : outcome file_entry :=
  href <- text_of (find (DAV "href") response_elem);;
  href <- unquote_href href;;
  let propstat := find (DAV "propstat") response_elem in
  prop <- find_in (DAV "prop") propstat;;
  resourcetype <- find_in (DAV "resourcetype") prop;;
  let is_collection := has_marker (DAV "collection") resourcetype in
  displayname <- find_in (DAV "displayname") prop;;
  let name :=
    match displayname with
    | Some d => text d
    | None => Some (basename (rstrip_char "/"%char href))
    end in
  contentlength <- find_in (DAV "getcontentlength") prop;;
  let size :=
    match contentlength with
    | Some c => text c
    | None => Some "0"
    end in
  Returned (FileEntry name href is_collection size).

Definition file_items `{Platform} (body : string) : outcome (list file_entry) :=
  tree <- etree_fromstring body;;
  for_each file_item (findall (DAV "response") tree).

Definition file_line (item : file_entry) : string :=
  (if fe_is_directory item then "[DIR]" else "[FILE]") ++ " " ++ fmt (fe_name item)
  ++ " (" ++ fmt (fe_size item) ++ " bytes)" ++ String LF "".

Definition str_exn (e : exn) : string := exn_str e.

(** [for x in v] on a decoded JSON value: the items of a list, the keys of
    a dict, the characters of a string. *)
Fixpoint chars (s : string) : list json :=
  match s with
  | EmptyString => []
  | String c s' => JStr (String c EmptyString) :: chars s'
  end.

Definition type_name (v : json) : string :=
  match v with
  | JNull => "NoneType"
  | JBool _ => "bool"
  | JInt _ => "int"
  | JStr _ => "str"
  | JList _ => "list"
  | JDict _ => "dict"
  end.

Definition py_iter (v : json) : outcome (list json) :=
  match v with
  | JList items => Returned items
  | JDict fields => Returned (map (fun kv => JStr (fst kv)) fields)
  | JStr s => Returned (chars s)
  | _ => Raised (Exn TypeError ("'" ++ type_name v ++ "' object is not iterable"))
  end.

(** [v[key]] for a [str] key. *)
Definition subscript (v : json) (key : string) : outcome json :=
  match v with
  | JDict fields =>
      match dict_get key fields with
      | Some x => Returned x
      | None => Raised (Exn KeyError ("'" ++ key ++ "'"))
      end
  | JList _ => Raised (Exn TypeError "list indices must be integers or slices, not str")
  | JStr _ => Raised (Exn TypeError "string indices must be integers, not 'str'")
  | _ => Raised (Exn TypeError ("'" ++ type_name v ++ "' object is not subscriptable"))
  end.

Definition note_line `{Platform} (note : json) : outcome string :=
  id <- subscript note "id";;
  title <- subscript note "title";;
  category <- subscript note "category";;
  Returned ("- ID: " ++ py_str id ++ ", Title: " ++ py_str title ++ ", Category: "
        ++ py_str category ++ String LF "").

(** One [{DAV:}response] of a calendar or address-book listing: kept only
    when its resource type holds [marker]. *)
Definition collection_item (marker : string) (response_elem : element)
    : outcome (option collection) :=
  href <- text_of (find (DAV "href") response_elem);;
  let propstat := find (DAV "propstat") response_elem in
  prop <- find_in (DAV "prop") propstat;;
  displayname <- find_in (DAV "displayname") prop;;
  resourcetype <- find_in (DAV "resourcetype") prop;;
  if has_marker marker resourcetype then
    name <- match displayname with
           | Some d => Returned (text d)
           | None => s <- last_segment href;; Returned (Some s)
           end;;
    Returned (Some (Collection name href))
  else Returned None.

Definition collections `{Platform} (marker body : string) : outcome (list collection) :=
  tree <- etree_fromstring body;;
  found <- for_each (collection_item marker) (findall (DAV "response") tree);;
  Returned (omap id found).

Definition collection_line (c : collection) : string :=
  "- " ++ fmt (col_name c) ++ " (Path: " ++ fmt (col_href c) ++ ")" ++ String LF "".

(** The quotation mark, for the XML request bodies. *)
Definition dq (s : string) : string :=
  String (ascii_of_nat 34) s ++ String (ascii_of_nat 34) "".

(** The [calendar-query] REPORT body (layout white space left out). *)
Definition calendar_query (start end_ : string) : string :=
  "<c:calendar-query xmlns:d=" ++ dq "DAV:" ++ " xmlns:c=" ++ dq "urn:ietf:params:xml:ns:caldav"
  ++ "><d:prop><d:getetag /><c:calendar-data /></d:prop><c:filter><c:comp-filter name="
  ++ dq "VCALENDAR" ++ "><c:comp-filter name=" ++ dq "VEVENT" ++ "><c:time-range start="
  ++ dq start ++ " end=" ++ dq end_
  ++ "/></c:comp-filter></c:comp-filter></c:filter></c:calendar-query>".

(** The [addressbook-query] REPORT body (layout white space left out). *)
Definition addressbook_query : string :=
  "<c:addressbook-query xmlns:d=" ++ dq "DAV:" ++ " xmlns:c="
  ++ dq "urn:ietf:params:xml:ns:carddav" ++ "><d:prop><d:getetag /><c:address-data><c:prop name="
  ++ dq "FN" ++ "/><c:prop name=" ++ dq "EMAIL" ++ "/><c:prop name=" ++ dq "TEL"
  ++ "/><c:prop name=" ++ dq "UID" ++ "/></c:address-data></d:prop></c:addressbook-query>".

(** One [{DAV:}response] of a calendar REPORT: the href and the
    [calendar-data] text, when the element is there. *)
Definition event_blob (response_elem : element)
    : outcome (option (option string * option string)) :=
  href <- text_of (find (DAV "href") response_elem);;
  let propstat := find (DAV "propstat") response_elem in
  prop <- find_in (DAV "prop") propstat;;
  caldata <- find_in (CALDAV "calendar-data") prop;;
  match caldata with
  | Some c => Returned (Some (href, text c))
  | None => Returned None
  end.

Definition event_blobs `{Platform} (body : string)
    : outcome (list (option string * option string)) :=
  tree <- etree_fromstring body;;
  found <- for_each event_blob (findall (DAV "response") tree);;
  Returned (omap id found).

(** The line scan for [SUMMARY:] and [DTSTART:]; [line[8:]] is [drop 8]. *)
Definition scan_event (data : option string) : outcome (string * string) :=
  match data with
  | None => Raised (none_has_no_attribute "splitlines")
  | Some data =>
      Returned
        (fold_left
           (fun '(summary, dtstart) line =>
              let summary := if String.prefix "SUMMARY:" line then drop 8 line else summary in
              let dtstart := if String.prefix "DTSTART:" line then drop 8 line else dtstart in
              (summary, dtstart))
           (splitlines data) ("No Title", ""))
  end.

Definition event_line (ef : option string * option string) : outcome string :=
  '(summary, dtstart) <- scan_event (snd ef);;
  Returned ("- " ++ summary ++ " (" ++ dtstart ++ ")" ++ String LF "").

Definition calendar_event_item (response_elem : element) : outcome (option calendar_event) :=
  blob <- event_blob response_elem;;
  match blob with
  | Some (href, data) =>
      '(summary, dtstart) <- scan_event data;;
      Returned (Some (CalendarEvent summary dtstart href))
  | None => Returned None
  end.

Definition calendar_events `{Platform} (body : string) : outcome (list calendar_event) :=
  tree <- etree_fromstring body;;
  found <- for_each calendar_event_item (findall (DAV "response") tree);;
  Returned (omap id found).

(** *** VCards and contacts *)

(** A decoded VCard: the Python dict [data]. *)
Abbreviation vcard := (gmap string string).

(** [d.get(k, '')] *)
Definition field (k : string) (d : vcard) : string := default "" (d !! k).

(** Python truthiness of a value that is [None] or a [str]. *)
Definition truthy_opt (o : option string) : bool :=
  match o with Some s => truthy s | None => false end.

(** "Unfold lines": [vcard_text.replace('\r\n ', '').replace('\n ', '').splitlines()]. *)
Definition unfold_lines (vcard_text : string) : list string :=
  splitlines
    (replace (String LF " ") ""
       (replace (String CR (String LF " ")) "" vcard_text)).

(** The body of the loop of [_parse_vcard] on one line. *)
Definition vcard_line (data : vcard) (line : string) : vcard :=
  match split_once ":"%char line with
  | None => data
  | Some (key, val) =>
      let key_parts := split ";"%char key in
      let key_name := upper (hd "" key_parts) in
      let val := strip val in
      if String.eqb key_name "FN" then <["fn" := val]> data
      else if String.eqb key_name "EMAIL" then <["email" := val]> data
      else if String.eqb key_name "TEL" then <["tel" := val]> data
      else if String.eqb key_name "ORG" then <["org" := val]> data
      else if String.eqb key_name "NOTE" then <["note" := val]> data
      else if String.eqb key_name "ADR" then
        let parts := split ";"%char val in
        let addr := join ", " (List.filter truthy parts) in
        <["adr" := addr]> data
      else data
  end.

Definition _parse_vcard (vcard_text : string) : vcard :=
  fold_left vcard_line (unfold_lines vcard_text) ∅.

(** The search filter of the REPORT path: [term] is the lowered search term. *)
Definition matches (term : string) (v : vcard) : bool :=
  contains term (lower (field "fn" v))
  || contains term (lower (field "email" v))
  || contains term (lower (field "tel" v)).

(** One [{DAV:}response] of the addressbook REPORT: the contact it adds to
    [contacts], if any. *)
Definition report_contact (search_term : option string) (response_elem : element)
    : outcome (option vcard) :=
  href <- text_of (find (DAV "href") response_elem);;
  let propstat := find (DAV "propstat") response_elem in
  prop <- find_in (DAV "prop") propstat;;
  adata <- find_in (CARDDAV "address-data") prop;;
  match adata with
  | Some a =>
      if truthy_opt (text a) then
        let v := _parse_vcard (default "" (text a)) in
        b <- basename_of href;;
        let v := <["href" := b]> v in
        match search_term with
        | Some s =>
            if truthy s then
              if matches (lower s) v then Returned (Some v) else Returned None
            else Returned (Some v)
        | None => Returned (Some v)
        end
      else Returned None
  | None => Returned None
  end.

(** [contacts] of the REPORT path before and after
    [contacts.sort(key=lambda x: x.get('fn', '').lower())]. *)
Definition report_matches `{Platform} (search_term : option string) (body : string)
    : outcome (list vcard) :=
  tree <- etree_fromstring body;;
  found <- for_each (report_contact search_term) (findall (DAV "response") tree);;
  Returned (omap id found).

Definition fn_key (v : vcard) : string := lower (field "fn" v).

Definition report_listing `{Platform} (search_term : option string) (body : string)
    : outcome (list vcard) :=
  found <- report_matches search_term body;;
  Returned (sort_by fn_key found).

(** One [{DAV:}response] of the PROPFIND fallback. *)
Definition fallback_contact (response_elem : element) : outcome (option vcard) :=
  href <- text_of (find (DAV "href") response_elem);;
  match href with
  | None => Raised (none_has_no_attribute "endswith")
  | Some href =>
      if endswith href ".vcf" then
        let name := title (replace "-" " " (replace ".vcf" "" (basename href))) in
        Returned (Some (<["href" := basename href]> (<["fn" := name]> (∅ : vcard))))
      else Returned None
  end.

(** [contacts] of the fallback path after its filter and its sort; every
    dict of this path holds ['fn'], so [c['fn']] is [field "fn" c]. *)
Definition fallback_listing `{Platform} (search_term : option string) (body : string)
    : outcome (list vcard) :=
  tree <- etree_fromstring body;;
  found <- for_each fallback_contact (findall (DAV "response") tree);;
  let contacts := omap id found in
  let contacts :=
    match search_term with
    | Some s =>
        if truthy s
        then List.filter (fun c => contains (lower s) (lower (field "fn" c))) contacts
        else contacts
    | None => contacts
    end in
  Returned (sort_by (field "fn") contacts).

(** "Pagination": [total], [start], [end] and the slice. *)
Definition paginate (page limit : Z) (contacts : list vcard) : contacts_page :=
  let total := Z.of_nat (List.length contacts) in
  let start := (page - 1) * limit in
  let end_ := start + limit in
  ContactsPage (py_slice contacts start end_) total.

(** [total_pages] as [list_contacts] computes it:
    [(total + limit - 1) // limit if limit else 1]. *)
Definition total_pages (total limit : Z) : Z :=
  if limit =? 0 then 1 else (total + limit - 1) / limit.

(** One line of the text [list_contacts] returns. *)
Definition contact_line (search_term : option string) (contact : vcard) : outcome string :=
  let line := "- " ++ default "Unknown" (contact !! "fn") ++ " " in
  let details : list string := [] in
  let details :=
    if truthy_opt (contact !! "email")
    then (details ++ [("<" ++ field "email" contact ++ ">")%string])%list else details in
  let details :=
    if truthy_opt (contact !! "tel")
    then (details ++ [("[Tel: " ++ field "tel" contact ++ "]")%string])%list else details in
  details <-
    (if truthy_opt search_term then
       match contact !! "href" with
       | Some h => Returned (details ++ [("(Ref: " ++ h ++ ")")%string])%list
       | None => Raised (Exn KeyError "'href'")
       end
     else Returned details);;
  let line := match details with [] => line | _ => line ++ join " " details end in
  Returned (line ++ String LF "").

Definition contacts_header (addressbook_name : string) (page total_pages total : Z) : string :=
  "Contacts in " ++ addressbook_name ++ " (Page " ++ of_Z page ++ "/" ++ of_Z total_pages
  ++ ", " ++ of_Z total ++ " total):" ++ String LF "".


(** *** Deck: the bodies of the partial updates *)

Definition update_deck_stack_data (title : option string) (order : option Z)
    : list (string * json) :=
  let data := [] in
  let data := if truthy_opt title then dict_set "title" (JStr (default "" title)) data else data in
  let data := match order with Some n => dict_set "order" (JInt n) data | None => data end in
  data.

Definition update_deck_card_data (title description : option string) (order : option Z)
    (duedate : option string) (archived : option bool) : list (string * json) :=
  let data := [] in
  let data := if truthy_opt title then dict_set "title" (JStr (default "" title)) data else data in
  let data :=
    match description with Some d => dict_set "description" (JStr d) data | None => data end in
  let data := match order with Some n => dict_set "order" (JInt n) data | None => data end in
  let data := match duedate with Some d => dict_set "duedate" (JStr d) data | None => data end in
  let data := match archived with Some b => dict_set "archived" (JBool b) data | None => data end in
  data.

Definition update_deck_label_data (title color : option string) : list (string * json) :=
  let data := [] in
  let data := if truthy_opt title then dict_set "title" (JStr (default "" title)) data else data in
  let data := if truthy_opt color then dict_set "color" (JStr (default "" color)) data else data in
  data.

Section Client.

Context `{Platform}.
Variable self : client.

Definition _get_webdav_url (path : string) : string :=
  let path := lstrip_char "/"%char path in
  urljoin (base self) ("remote.php/dav/files/" ++ username self ++ "/" ++ quote path).

Definition _get_notes_api_url (endpoint : string) : string :=
  urljoin (base self) ("index.php/apps/notes/api/v1/" ++ endpoint).

Definition _get_deck_api_url (endpoint : string) : string :=
  urljoin (base self) ("index.php/apps/deck/api/v1.0/" ++ endpoint).

Definition _get_caldav_url (endpoint : string) : string :=
  let endpoint := lstrip_char "/"%char endpoint in
  urljoin (base self) ("remote.php/dav/calendars/" ++ username self ++ "/" ++ endpoint).

Definition _get_carddav_url (endpoint : string) : string :=
  let endpoint := lstrip_char "/"%char endpoint in
  urljoin (base self)
    ("remote.php/dav/addressbooks/users/" ++ username self ++ "/" ++ endpoint).

(** [self.session.request(method, url, ...)] and its shorthands. *)
Definition request (method url : string) (headers : list (string * string))
    (data : option string) : io response :=
  session_request (Request method url headers data None).

Definition get (url : string) : io response := request "GET" url [] None.
Definition delete (url : string) : io response := request "DELETE" url [] None.

Definition put_json (url : string) (body : list (string * json)) : io response :=
  session_request (Request "PUT" url [] None (Some body)).

(** *** Files (WebDAV) *)

Definition list_files (path : string) : io string :=
  let path := lstrip_char "/"%char path in
  let url := _get_webdav_url path in
  response <~ request "PROPFIND" url depth_1 None;;
  if status_code response =? 404 then ret ("Error: Path '" ++ path ++ "' not found.")
  else
    _ <~ lift (raise_for_status response);;
    try_except
      (items <~ lift (file_items (content response));;
       ret (fold_left (fun output item => output ++ file_line item) items
               ("Listing of " ++ path ++ ":" ++ String LF "")))
      (fun e => ret ("Error parsing WebDAV response: " ++ str_exn e)).

Definition read_file (path : string) : io string :=
  let path := lstrip_char "/"%char path in
  let url := _get_webdav_url path in
  response <~ get url;;
  if status_code response =? 404 then ret ("Error: File '" ++ path ++ "' not found.")
  else
    _ <~ lift (raise_for_status response);;
    ret (text_body response).

Definition delete_file (path : string) : io string :=
  let path := lstrip_char "/"%char path in
  let url := _get_webdav_url path in
  response <~ delete url;;
  if status_code response =? 404 then ret ("Error: File '" ++ path ++ "' not found.")
  else
    _ <~ lift (raise_for_status response);;
    ret ("Successfully deleted '" ++ path ++ "'.").

Definition list_files_raw (path : string) : io (option (list file_entry) * option string) :=
  let path := lstrip_char "/"%char path in
  let url := _get_webdav_url path in
  response <~ request "PROPFIND" url depth_1 None;;
  if status_code response =? 404
  then ret (None, Some ("Error: Path '" ++ path ++ "' not found."))
  else
    _ <~ lift (raise_for_status response);;
    try_except
      (items <~ lift (file_items (content response));;
       ret (Some items, None))
      (fun e => ret (None, Some ("Error parsing WebDAV response: " ++ str_exn e))).

(** *** Notes (REST) *)

Definition list_notes : io string :=
  let url := _get_notes_api_url "notes" in
  response <~ get url;;
  if status_code response =? 404
  then ret "Notes app not found or not enabled on this Nextcloud instance."
  else
    _ <~ lift (raise_for_status response);;
    notes <~ lift (response_json response);;
    lift (notes <- py_iter notes;;
          lines <- for_each note_line notes;;
          Returned (fold_left String.append lines ("Notes:" ++ String LF ""))).

Definition get_note (note_id : Z) : io string :=
  let url := _get_notes_api_url ("notes/" ++ of_Z note_id) in
  response <~ get url;;
  _ <~ lift (raise_for_status response);;
  note <~ lift (response_json response);;
  lift (title <- subscript note "title";;
        category <- subscript note "category";;
        content <- subscript note "content";;
        Returned ("Title: " ++ py_str title ++ String LF "" ++ "Category: " ++ py_str category
              ++ String LF "" ++ "Content:" ++ String LF "" ++ py_str content)).

Definition delete_note (note_id : Z) : io string :=
  let url := _get_notes_api_url ("notes/" ++ of_Z note_id) in
  response <~ delete url;;
  _ <~ lift (raise_for_status response);;
  ret ("Note " ++ of_Z note_id ++ " deleted.").

Definition list_notes_raw : io (option json * option string) :=
  let url := _get_notes_api_url "notes" in
  response <~ get url;;
  if status_code response =? 404 then ret (None, Some "Notes app not found.")
  else
    _ <~ lift (raise_for_status response);;
    notes <~ lift (response_json response);;
    ret (Some notes, None).

Definition get_note_raw (note_id : Z) : io (option json * option string) :=
  let url := _get_notes_api_url ("notes/" ++ of_Z note_id) in
  response <~ get url;;
  _ <~ lift (raise_for_status response);;
  note <~ lift (response_json response);;
  ret (Some note, None).

(** *** Calendars (CalDAV) and address books (CardDAV) *)

Definition list_calendars : io string :=
  let url := _get_caldav_url "" in
  response <~ request "PROPFIND" url depth_1 None;;
  _ <~ lift (raise_for_status response);;
  try_except
    (calendars <~ lift (collections (CALDAV "calendar") (content response));;
     ret (fold_left (fun output cal => output ++ collection_line cal) calendars
             ("Calendars:" ++ String LF "")))
    (fun e => ret ("Error listing calendars: " ++ str_exn e)).

Definition list_calendars_raw : io (option (list collection) * option string) :=
  let url := _get_caldav_url "" in
  response <~ request "PROPFIND" url depth_1 None;;
  _ <~ lift (raise_for_status response);;
  try_except
    (calendars <~ lift (collections (CALDAV "calendar") (content response));;
     ret (Some calendars, None))
    (fun e => ret (None, Some ("Error: " ++ str_exn e))).

Definition list_addressbooks : io string :=
  let url := _get_carddav_url "" in
  response <~ request "PROPFIND" url depth_1 None;;
  _ <~ lift (raise_for_status response);;
  try_except
    (books <~ lift (collections (CARDDAV "addressbook") (content response));;
     ret (fold_left (fun output book => output ++ collection_line book) books
             ("Address Books:" ++ String LF "")))
    (fun e => ret ("Error listing address books: " ++ str_exn e)).

Definition list_addressbooks_raw : io (option (list collection) * option string) :=
  let url := _get_carddav_url "" in
  response <~ request "PROPFIND" url depth_1 None;;
  _ <~ lift (raise_for_status response);;
  try_except
    (books <~ lift (collections (CARDDAV "addressbook") (content response));;
     ret (Some books, None))
    (fun e => ret (None, Some ("Error: " ++ str_exn e))).

Definition list_calendar_events (calendar_name start end_ : string) : io string :=
  let url := _get_caldav_url calendar_name in
  response <~ request "REPORT" url xml_headers (Some (calendar_query start end_));;
  _ <~ lift (raise_for_status response);;
  try_except
    (lift (events <- event_blobs (content response);;
           lines <- for_each event_line events;;
           Returned (fold_left String.append lines
                   ("Events in " ++ calendar_name ++ " (" ++ start ++ " to " ++ end_ ++ "):"
                    ++ String LF ""))))
    (fun e => ret ("Error listing events: " ++ str_exn e)).

Definition list_calendar_events_raw (calendar_name start end_ : string)
    : io (option (list calendar_event) * option string) :=
  let url := _get_caldav_url calendar_name in
  response <~ request "REPORT" url xml_headers (Some (calendar_query start end_));;
  _ <~ lift (raise_for_status response);;
  try_except
    (events <~ lift (calendar_events (content response));;
     ret (Some events, None))
    (fun e => ret (None, Some ("Error: " ++ str_exn e))).

Definition delete_calendar_event (calendar_name event_filename : string) : io string :=
  let url := _get_caldav_url (calendar_name ++ "/" ++ event_filename) in
  response <~ delete url;;
  _ <~ lift (raise_for_status response);;
  ret ("Event " ++ event_filename ++ " deleted.").

Definition get_calendar_event (calendar_name event_filename : string) : io string :=
  let url := _get_caldav_url (calendar_name ++ "/" ++ event_filename) in
  response <~ get url;;
  _ <~ lift (raise_for_status response);;
  ret (text_body response).

(** *** Contacts (CardDAV) *)

(** The REPORT in a [try]; on any exception the PROPFIND fallback in a
    [try] of its own (the debugging [print] of the handler is left out). *)
Definition list_contacts_raw (addressbook_name : string) (page limit : Z)
    (search_term : option string) : io (option contacts_page * option string) :=
  let url := _get_carddav_url addressbook_name in
  try_except
    (response <~ request "REPORT" url xml_headers (Some addressbook_query);;
     _ <~ lift (raise_for_status response);;
     contacts <~ lift (report_listing search_term (content response));;
     ret (Some (paginate page limit contacts), None))
    (fun e =>
       try_except
         (response <~ request "PROPFIND" url depth_1 None;;
          _ <~ lift (raise_for_status response);;
          contacts <~ lift (fallback_listing search_term (content response));;
          ret (Some (paginate page limit contacts), None))
         (fun e2 =>
            ret (None, Some ("Error listing contacts: " ++ str_exn e ++ " / " ++ str_exn e2)))).


Definition not_subscriptable : exn :=
  Exn TypeError "'NoneType' object is not subscriptable".

Definition list_contacts (addressbook_name : string) (page limit : Z)
    (search_term : option string) : io string :=
  r <~ list_contacts_raw addressbook_name page limit search_term;;
  let '(result, error) := r in
  if truthy_opt error then ret (default "" error)
  else
    match result with
    | None => raise not_subscriptable
    | Some result =>
        let contacts := contacts result in
        let total := total result in
        let total_pages := total_pages total limit in
        lift (lines <- for_each (contact_line search_term) contacts;;
              Returned (fold_left String.append lines
                          (contacts_header addressbook_name page total_pages total)))
    end.


(** *** Deck (REST): partial updates *)

Definition update_deck_stack (board_id stack_id : Z) (title : option string)
    (order : option Z) : io string :=
  let url := _get_deck_api_url ("boards/" ++ of_Z board_id ++ "/stacks/" ++ of_Z stack_id) in
  let data := update_deck_stack_data title order in
  response <~ put_json url data;;
  _ <~ lift (raise_for_status response);;
  ret ("Stack " ++ of_Z stack_id ++ " updated.").

Definition update_deck_card (board_id stack_id card_id : Z) (title description : option string)
    (order : option Z) (duedate : option string) (archived : option bool) : io string :=
  let url := _get_deck_api_url ("boards/" ++ of_Z board_id ++ "/stacks/" ++ of_Z stack_id
                                ++ "/cards/" ++ of_Z card_id) in
  let data := update_deck_card_data title description order duedate archived in
  response <~ put_json url data;;
  _ <~ lift (raise_for_status response);;
  ret ("Card " ++ of_Z card_id ++ " updated.").

Definition update_deck_label (board_id label_id : Z) (title color : option string) : io string :=
  let url := _get_deck_api_url ("boards/" ++ of_Z board_id ++ "/labels/" ++ of_Z label_id) in
  let data := update_deck_label_data title color in
  response <~ put_json url data;;
  _ <~ lift (raise_for_status response);;
  ret ("Label " ++ of_Z label_id ++ " updated.").

End Client.

(** ** The extension: the contacts tool *)

(** What [fetch] of [nc_list_contacts_widget] leaves behind: an error shown
    in the widget and stored as output, or the subtitle and the contacts
    the widget is given together with the stored output. *)
Inductive contacts_tool_result : Type :=
| ToolError (widget_message output : string)
| ToolContacts (subtitle : string) (shown : list vcard) (output : string).

(** [total_pages] as [nc_list_contacts_widget] computes it (the limit is 30):
    [(total + 29) // 30 if total else 1]. *)
Definition widget_total_pages (total : Z) : Z :=
  if total =? 0 then 1 else (total + 29) / 30.

(** [fetch] of [nc_list_contacts_widget], run with the client that
    [_get_client] built: what it hands to the widget (through
    [GLib.idle_add]) and what it stores with [result.set_output]. *)
Definition nc_list_contacts_widget_fetch `{Platform} (client : client)
    (addressbook_name : string) (page : Z) (search_term : string) : io contacts_tool_result :=
  try_except
    (r <~ list_contacts_raw client addressbook_name page 30 (Some search_term);;
     let '(res_dict, err) := r in
     if truthy_opt err then ret (ToolError (default "" err) (default "" err))
     else
       match res_dict with
       | None => raise not_subscriptable
       | Some res_dict =>
           let contacts := contacts res_dict in
           let total := total res_dict in
           let total_pages := widget_total_pages total in
           output <~ list_contacts client addressbook_name page 30 (Some search_term);;
           ret (ToolContacts
                  (addressbook_name ++ " (Page " ++ of_Z page ++ "/" ++ of_Z total_pages ++ ")")
                  contacts output)
       end)
    (fun e => ret (ToolError (str_exn e) ("Error: " ++ str_exn e))).


(** ** The VCard properties, as the specification words them *)





(** The value a field of a PUT body has: [None] when the field is left out. *)
Definition sent_text (keep : bool) (param : option string) : option json :=
  if keep then JStr <$> param else None.

(** [run] sends one PUT to [url] whose JSON body is [data], and returns
    [done] unless the request or [raise_for_status] raises. *)
Definition sends_put `{Platform} (run : io string) (url : string)
    (data : list (string * json)) (done : string) : Prop :=
  forall w,
    run w = match session_request (Request "PUT" url [] None (Some data)) w with
            | (Returned response, w') =>
                match raise_for_status response with
                | Returned _ => (Returned done, w')
                | Raised e => (Raised e, w')
                end
            | (Raised e, w') => (Raised e, w')
            end.

(** ** Server behaviours the properties speak about *)

(** In state [w] every request is answered with status 404. *)
Definition answers_404 `{Platform} (w : world) : Prop :=
  forall req, exists r w', session_request req w = (Returned r, w') /\ status_code r = 404.

(** The server always answers with a success status and a body that neither
    the XML parser ([e_xml]) nor the JSON decoder ([e_json]) accepts. *)
Definition answers_malformed `{Platform} (e_xml e_json : exn) : Prop :=
  forall req w, exists r w',
    session_request req w = (Returned r, w')
    /\ raise_for_status r = Returned tt
    /\ etree_fromstring (content r) = Raised e_xml
    /\ json_loads (text_body r) = Raised e_json.


(** ** Concrete platforms, for examples *)

(** [str()] on the JSON values the examples print. *)
Definition example_str (v : json) : string :=
  match v with
  | JNull => "None"
  | JBool true => "True"
  | JBool false => "False"
  | JInt n => of_Z n
  | JStr s => s
  | JList _ => "[...]"
  | JDict _ => "{...}"
  end.

(** A server without state that answers by [answer], with the given
    decoders; URLs are joined by concatenation and left unquoted. *)
Definition scripted (answer : http_request -> response)
    (parse : string -> outcome element) (decode : string -> outcome json) : Platform := {|
  world := unit;
  session_request := fun req w => (Returned (answer req), w);
  etree_fromstring := parse;
  json_loads := decode;
  urljoin := String.append;
  quote := fun s => s;
  unquote := fun s => s;
  py_str := example_str
|}.

Definition example_client : client :=
  new_client "https://cloud.example/" "ada" "secret".

Definition no_xml : exn := Exn XMLSyntaxError "Start tag expected, '<' not found, line 1, column 1".
Definition no_json : exn := Exn JSONDecodeError "Expecting value: line 1 column 1 (char 0)".

(** Every resource is missing. *)
Definition server_404 : Platform :=
  scripted (fun req => Response 404 "Not Found" (req_url req) "" "")
    (fun _ => Raised no_xml) (fun _ => Raised no_json).

(** Every answer is 200 with a body that is neither XML nor JSON. *)
Definition server_garbage : Platform :=
  scripted (fun req => Response 200 "OK" (req_url req) "oops" "oops")
    (fun _ => Raised no_xml) (fun _ => Raised no_json).



(** The first [{DAV:}propstat/{DAV:}prop] of a response. *)
Definition first_prop (response_elem : element) : option element :=
  match find (DAV "propstat") response_elem with
  | Some propstat => find (DAV "prop") propstat
  | None => None
  end.

(** A multistatus answer to a PROPFIND on the files root: a folder, a file
    of 42 bytes, and a file whose server reports a length of -1. *)
Definition dav_response (href : string) (props : list element) : element :=
  Element (DAV "response") None
    [Element (DAV "href") (Some href) [];
     Element (DAV "propstat") None
       [Element (DAV "prop") None props;
        Element (DAV "status") (Some "HTTP/1.1 200 OK") []]].









(** An address book of four contacts, one of them without a name. *)
Definition card_response (filename vcard_text : string) : element :=
  dav_response ("/remote.php/dav/addressbooks/users/ada/contacts/" ++ filename)
    [Element (DAV "getetag") (Some "etag") [];
     Element (CARDDAV "address-data") (Some vcard_text) []].

Definition contacts_multistatus : element :=
  Element (DAV "multistatus") None
    [card_response "carol.vcf"
       ("BEGIN:VCARD" ++ String LF "FN:Carol" ++ String LF "EMAIL:carol@corp.example"
        ++ String LF "END:VCARD");
     card_response "bob.vcf"
       ("BEGIN:VCARD" ++ String LF "FN:Bob Jones" ++ String LF "TEL:555-0100"
        ++ String LF "END:VCARD");
     card_response "anon.vcf"
       ("BEGIN:VCARD" ++ String LF "EMAIL:nobody@example.org" ++ String LF "END:VCARD");
     card_response "alice.vcf"
       ("BEGIN:VCARD" ++ String LF "FN:alice Smith" ++ String LF "EMAIL:alice@example.org"
        ++ String LF "END:VCARD")].

Definition server_contacts : Platform :=
  scripted (fun req => Response 207 "Multi-Status" (req_url req) "contacts" "contacts")
    (fun body =>
       if String.eqb body "contacts" then Returned contacts_multistatus else Raised no_xml)
    (fun _ => Raised no_json).


(** ** The rest of the client *)

Section MoreClient.

Context `{Platform}.
Variable self : client.

Definition _get_cookbook_api_url (endpoint : string) : string :=
  urljoin (base self) ("index.php/apps/cookbook/api/v1/" ++ endpoint).

(** [self.session.post(url, json=body)]. *)
Definition post_json (url : string) (body : list (string * json)) : io response :=
  session_request (Request "POST" url [] None (Some body)).

(** [self.session.put(url, data=data, headers=headers)]. *)
Definition put_data (url : string) (headers : list (string * string)) (data : string)
    : io response :=
  session_request (Request "PUT" url headers (Some data) None).

(** *** Files: the other mutations *)

Definition write_file (path content : string) : io string :=
  let path := lstrip_char "/"%char path in
  let url := _get_webdav_url self path in
  response <~ put_data url [] content;;
  _ <~ lift (raise_for_status response);;
  ret ("Successfully wrote to '" ++ path ++ "'.").

Definition create_directory (path : string) : io string :=
  let path := lstrip_char "/"%char path in
  let url := _get_webdav_url self path in
  response <~ request "MKCOL" url [] None;;
  if status_code response =? 405
  then ret ("Directory '" ++ path ++ "' already exists or not allowed.")
  else
    _ <~ lift (raise_for_status response);;
    ret ("Successfully created directory '" ++ path ++ "'.").

(** *** Notes *)

Definition create_note (title content category : string) : io string :=
  let url := _get_notes_api_url self "notes" in
  let payload := [("title", JStr title); ("content", JStr content);
                  ("category", JStr category)] in
  response <~ post_json url payload;;
  _ <~ lift (raise_for_status response);;
  note <~ lift (response_json response);;
  lift (id <- subscript note "id";;
        Returned ("Note created with ID: " ++ py_str id)).

(** *** Calendar events *)

(** The iCalendar text of [create_calendar_event]; [uid] is the fresh
    [str(uuid.uuid4())]. *)
Definition event_ical (uid title start_dt end_dt description : string) : string :=
  "BEGIN:VCALENDAR" ++ String LF "VERSION:2.0" ++ String LF "BEGIN:VEVENT"
  ++ String LF "UID:" ++ uid
  ++ String LF "SUMMARY:" ++ title
  ++ String LF "DTSTART:" ++ start_dt
  ++ String LF "DTEND:" ++ end_dt
  ++ String LF "DESCRIPTION:" ++ description
  ++ String LF "END:VEVENT" ++ String LF "END:VCALENDAR".

(** [create_calendar_event], given the identifier [uuid.uuid4()] draws. *)
Definition create_calendar_event (uid calendar_name title start_dt end_dt description : string)
    : io string :=
  let ical := event_ical uid title start_dt end_dt description in
  let url := _get_caldav_url self (calendar_name ++ "/" ++ uid ++ ".ics") in
  let headers := [("Content-Type", "text/calendar; charset=utf-8")] in
  response <~ put_data url headers ical;;
  _ <~ lift (raise_for_status response);;
  ret ("Event '" ++ title ++ "' created in calendar '" ++ calendar_name ++ "'.").

(** *** Deck: creation, reordering, deletion *)

Definition create_deck_card_data (title description ctype : string) (order : Z)
    (duedate : option string) : list (string * json) :=
  let data := [("title", JStr title); ("description", JStr description);
               ("type", JStr ctype); ("order", JInt order)] in
  let data :=
    if truthy_opt duedate then dict_set "duedate" (JStr (default "" duedate)) data else data in
  data.

Definition create_deck_card (board_id stack_id : Z) (title description ctype : string)
    (order : Z) (duedate : option string) : io string :=
  let url := _get_deck_api_url self ("boards/" ++ of_Z board_id ++ "/stacks/" ++ of_Z stack_id
                                     ++ "/cards") in
  let data := create_deck_card_data title description ctype order duedate in
  response <~ post_json url data;;
  _ <~ lift (raise_for_status response);;
  card <~ lift (response_json response);;
  lift (id <- subscript card "id";;
        Returned ("Card created with ID: " ++ py_str id)).

(** Python truthiness of a value that is [None] or an [int]. *)
Definition truthy_int (o : option Z) : bool :=
  match o with Some n => negb (n =? 0) | None => false end.

Definition reorder_deck_card_data (order : Z) (target_stack_id : option Z)
    : list (string * json) :=
  let data := [("order", JInt order)] in
  let data :=
    if truthy_int target_stack_id
    then dict_set "stackId" (JInt (default 0 target_stack_id)) data else data in
  data.

Definition reorder_deck_card (board_id stack_id card_id order : Z)
    (target_stack_id : option Z) : io string :=
  let url := _get_deck_api_url self ("boards/" ++ of_Z board_id ++ "/stacks/" ++ of_Z stack_id
                                     ++ "/cards/" ++ of_Z card_id) in
  let data := reorder_deck_card_data order target_stack_id in
  response <~ put_json url data;;
  _ <~ lift (raise_for_status response);;
  ret ("Card " ++ of_Z card_id ++ " reordered.").

Definition delete_deck_card (board_id stack_id card_id : Z) : io string :=
  let url := _get_deck_api_url self ("boards/" ++ of_Z board_id ++ "/stacks/" ++ of_Z stack_id
                                     ++ "/cards/" ++ of_Z card_id) in
  response <~ delete url;;
  _ <~ lift (raise_for_status response);;
  ret ("Card " ++ of_Z card_id ++ " deleted.").

Definition delete_deck_stack (board_id stack_id : Z) : io string :=
  let url := _get_deck_api_url self ("boards/" ++ of_Z board_id ++ "/stacks/" ++ of_Z stack_id) in
  response <~ delete url;;
  _ <~ lift (raise_for_status response);;
  ret ("Stack " ++ of_Z stack_id ++ " deleted.").

Definition assign_deck_label (board_id stack_id card_id label_id : Z) : io string :=
  let url := _get_deck_api_url self ("boards/" ++ of_Z board_id ++ "/stacks/" ++ of_Z stack_id
                                     ++ "/cards/" ++ of_Z card_id ++ "/assignLabel") in
  response <~ put_json url [("labelId", JInt label_id)];;
  _ <~ lift (raise_for_status response);;
  ret ("Label " ++ of_Z label_id ++ " assigned to card " ++ of_Z card_id ++ ".").

(** *** Cookbook *)

(** [[i.strip() for i in text.split('\n') if i.strip()]]. *)
Definition recipe_lines (text : string) : list string :=
  map strip (List.filter (fun i => truthy (strip i)) (split LF text)).

(** An argument that is a [str] is cut into lines; any other value is
    passed on as it is. *)
Definition as_lines (v : json) : json :=
  match v with
  | JStr text => JList (map JStr (recipe_lines text))
  | _ => v
  end.

Definition create_recipe_data (name description : string) (ingredients instructions : json)
    : list (string * json) :=
  [("name", JStr name); ("description", JStr description);
   ("ingredients", as_lines ingredients); ("instructions", as_lines instructions)].

Definition create_recipe (name description : string) (ingredients instructions : json)
    : io string :=
  let url := _get_cookbook_api_url "recipes" in
  let data := create_recipe_data name description ingredients instructions in
  response <~ post_json url data;;
  _ <~ lift (raise_for_status response);;
  recipe <~ lift (response_json response);;
  lift (recipe_id <- match recipe with
                     | JDict _ => subscript recipe "id"
                     | _ => Returned recipe
                     end;;
        Returned ("Recipe created with ID: " ++ py_str recipe_id)).

End MoreClient.

(** ** The extension: settings and the simple tools *)

(** The three settings, as [get_setting] returns them. *)
Record settings : Type := Settings {
  nextcloud_url : option string;
  nextcloud_username : option string;
  nextcloud_password : option string
}.

Definition configuration_missing : string :=
  "Nextcloud configuration missing. Please check settings.".

(** [_get_client]: the pair [(client, error)]. *)
Definition _get_client (s : settings) : option client * option string :=
  if negb (truthy_opt (nextcloud_url s))
     || negb (truthy_opt (nextcloud_username s))
     || negb (truthy_opt (nextcloud_password s))
  then (None, Some configuration_missing)
  else (Some (new_client (default "" (nextcloud_url s)) (default "" (nextcloud_username s))
                (default "" (nextcloud_password s))), None).

(** The frame of every simple tool: [client, error = self._get_client()];
    [if error: return error]; [return client.method(...)]. *)
Definition with_client `{Platform} (s : settings) (method : client -> io string) : io string :=
  let '(client, error) := _get_client s in
  if truthy_opt error then ret (default "" error)
  else
    match client with
    | Some client => method client
    | None => raise (none_has_no_attribute "method")
    end.

Definition nc_read_file `{Platform} (s : settings) (path : string) : io string :=
  with_client s (fun client => read_file client path).

Definition nc_write_file `{Platform} (s : settings) (path content : string) : io string :=
  with_client s (fun client => write_file client path content).

Definition nc_delete_file `{Platform} (s : settings) (path : string) : io string :=
  with_client s (fun client => delete_file client path).

Definition nc_create_directory `{Platform} (s : settings) (path : string) : io string :=
  with_client s (fun client => create_directory client path).

Definition nc_create_note `{Platform} (s : settings) (title content category : string)
    : io string :=
  with_client s (fun client => create_note client title content category).

Definition nc_delete_note `{Platform} (s : settings) (note_id : Z) : io string :=
  with_client s (fun client => delete_note client note_id).

Definition nc_archive_deck_card `{Platform} (s : settings) (board_id stack_id card_id : Z)
    : io string :=
  with_client s (fun client =>
    update_deck_card client board_id stack_id card_id None None None None (Some true)).

Definition nc_unarchive_deck_card `{Platform} (s : settings) (board_id stack_id card_id : Z)
    : io string :=
  with_client s (fun client =>
    update_deck_card client board_id stack_id card_id None None None None (Some false)).

(** ** The file widget: the icon of a file *)

Definition icons : list (string * string) :=
  [("pdf", "x-office-document-symbolic"); ("doc", "x-office-document-symbolic");
   ("docx", "x-office-document-symbolic"); ("txt", "text-x-generic-symbolic");
   ("md", "text-x-generic-symbolic"); ("jpg", "image-x-generic-symbolic");
   ("jpeg", "image-x-generic-symbolic"); ("png", "image-x-generic-symbolic");
   ("gif", "image-x-generic-symbolic"); ("mp3", "audio-x-generic-symbolic");
   ("mp4", "video-x-generic-symbolic"); ("zip", "package-x-generic-symbolic");
   ("py", "text-x-script-symbolic"); ("js", "text-x-script-symbolic")].

(** [icons.get(ext, "text-x-generic-symbolic")]. *)
Definition icon_of (ext : string) : string :=
  default "text-x-generic-symbolic" (dict_get ext icons).

Definition _get_file_icon (filename : string) : string :=
  let ext :=
    if occurs "."%char filename
    then lower (List.last (split "."%char filename) "")
    else "" in
  icon_of ext.

(** ** Ways of failing *)



(** [run] leaves the server in the state its one request [req] leaves it
    in: nothing is sent before or after, whether the request succeeds or
    not. *)
Definition sends_once `{Platform} {A : Type} (run : io A) (req : http_request) : Prop :=
  forall w, snd (run w) = snd (session_request req w).

(** ** Calendars and address books among the responses *)

(** The resource type of the first [propstat/prop] of a response holds
    [marker]. *)
Definition marked (marker : string) (response_elem : element) : bool :=
  match first_prop response_elem with
  | Some prop => has_marker marker (find (DAV "resourcetype") prop)
  | None => false
  end.

(** The record a listing makes of a response: its href as it stands, and
    as name the display name or, without one, the last segment of the href. *)
Definition lists_as (response_elem : element) (c : collection) : Prop :=
  exists href_elem prop,
    find (DAV "href") response_elem = Some href_elem
    /\ col_href c = text href_elem
    /\ first_prop response_elem = Some prop
    /\ col_name c = match find (DAV "displayname") prop with
                    | Some displayname => text displayname
                    | None => option_map (fun h => basename (rstrip_char "/"%char h))
                                (text href_elem)
                    end.

(** All three settings are there and none is empty. *)
Definition configured (s : settings) : bool :=
  truthy_opt (nextcloud_url s) && truthy_opt (nextcloud_username s)
  && truthy_opt (nextcloud_password s).

(** Settings without a password. *)
Definition settings_without_password : settings :=
  Settings (Some "https://cloud.example") (Some "ada") (Some "").



(** A server without the addressbook REPORT: the REPORT is refused, and a
    PROPFIND lists the collection, three cards and a text file. *)
Definition folder_multistatus : element :=
  Element (DAV "multistatus") None
    (map (fun href => Element (DAV "response") None [Element (DAV "href") (Some href) []])
       ["/remote.php/dav/addressbooks/users/ada/contacts/";
        "/remote.php/dav/addressbooks/users/ada/contacts/john-doe.vcf";
        "/remote.php/dav/addressbooks/users/ada/contacts/zoe.vcf";
        "/remote.php/dav/addressbooks/users/ada/contacts/readme.txt";
        "/remote.php/dav/addressbooks/users/ada/contacts/alice-smith.vcf"]).

Definition server_without_report : Platform :=
  scripted
    (fun req =>
       if String.eqb (req_method req) "REPORT"
       then Response 501 "Not Implemented" (req_url req) "" ""
       else Response 207 "Multi-Status" (req_url req) "folder" "folder")
    (fun body => if String.eqb body "folder" then Returned folder_multistatus else Raised no_xml)
    (fun _ => Raised no_json).

Definition folder_contacts : list vcard :=
  match @fallback_listing server_without_report (Some "O") "folder" with
  | Returned cs => cs
  | Raised _ => []
  end.





(** * Properties *)

(** ** The text helpers on small inputs *)

Example splitlines_keeps_inner_empty_lines :
  splitlines ("a" ++ String LF (String LF ("b" ++ String LF ""))) = ["a"; ""; "b"].
Proof. reflexivity. Qed.

Example splitlines_crlf_is_one_break :
  splitlines ("a" ++ String CR (String LF "b")) = ["a"; "b"].
Proof. reflexivity. Qed.

Example replace_leftmost_first : replace "aa" "b" "aaa" = "ba".
Proof. reflexivity. Qed.

Example split_keeps_empty_parts : split ";" ";;1 Main St;Springfield;" =
  [""; ""; "1 Main St"; "Springfield"; ""].
Proof. reflexivity. Qed.

Example title_of_a_file_name : title (replace "-" " " "john-doe") = "John Doe".
Proof. reflexivity. Qed.

Example basename_of_a_collection : basename "/dav/contacts/" = "".
Proof. reflexivity. Qed.

Example py_slice_clamps : py_slice [1; 2; 3; 4; 5] 4 8 = [5] /\ py_slice [1; 2; 3] (-2) 10 = [2; 3].
Proof. split; reflexivity. Qed.

Example sort_by_is_stable :
  sort_by lower ["b"; "A"; "a"; ""; "B"] = [""; "A"; "a"; "b"; "B"].
Proof. reflexivity. Qed.

Example total_pages_rounds_up : total_pages 61 30 = 3 /\ total_pages 60 30 = 2.
Proof. split; reflexivity. Qed.

(** ** Text helpers *)

Lemma prefix_iff (p s : string) :
  String.prefix p s = true <-> exists t, s = p ++ t.
Proof.
  revert s. induction p as [|a p IH]; intros s; cbn.
  - split; [intros _; exists s; reflexivity | intros _; destruct s; reflexivity].
  - destruct s as [|b s]; cbn.
    + split; [discriminate | intros [t Ht]; discriminate].
    + destruct (ascii_dec a b) as [->|Hne].
      * rewrite IH. split; intros [t Ht]; exists t.
        -- rewrite Ht. reflexivity.
        -- cbn in Ht. injection Ht as Ht. exact Ht.
      * split; [discriminate | intros [t Ht]; cbn in Ht; congruence].
Qed.


Lemma string_app_assoc (a b c : string) : (a ++ b) ++ c = a ++ (b ++ c).
Proof. induction a as [|x a IH]; cbn; [reflexivity | rewrite IH; reflexivity]. Qed.


Lemma is_empty_true (s : string) : is_empty s = true <-> s = "".
Proof. destruct s; cbn; split; congruence. Qed.

Lemma contains_empty (s : string) : contains "" s = true.
Proof. destruct s; reflexivity. Qed.

Lemma contains_iff (sub s : string) :
  contains sub s = true <-> exists pre post, s = pre ++ sub ++ post.
Proof.
  induction s as [|c s IH].
  - cbn. rewrite is_empty_true. split.
    + intros ->. exists "", "". reflexivity.
    + intros (pre & post & Heq). destruct pre; [|discriminate].
      destruct sub; [reflexivity | discriminate].
  - change (contains sub (String c s))
      with (String.prefix sub (String c s) || contains sub s)%bool.
    rewrite orb_true_iff, IH. split.
    + intros [Hp | (pre & post & ->)].
      * apply prefix_iff in Hp as [t Ht]. exists "", t. exact Ht.
      * exists (String c pre), post. reflexivity.
    + intros (pre & post & Heq). destruct pre as [|d pre]; cbn in Heq.
      * left. destruct sub as [|a sub]; [reflexivity|].
        apply (prefix_iff (String a sub)). exists post. exact Heq.
      * right. injection Heq as _ ->. exists pre, post. reflexivity.
Qed.

Lemma contains_app_r (sub a b : string) :
  contains sub b = true -> contains sub (a ++ b) = true.
Proof.
  rewrite !contains_iff. intros (pre & post & ->).
  exists (a ++ pre), post. apply eq_sym, string_app_assoc.
Qed.

Lemma contains_app_l (sub a b : string) :
  contains sub a = true -> contains sub (a ++ b) = true.
Proof.
  rewrite !contains_iff. intros (pre & post & ->).
  exists pre, (post ++ b). rewrite !string_app_assoc. reflexivity.
Qed.



(** ** Running a client method *)

Section Running.

Context `{Platform}.

Lemma io_bind_returned {A B : Type} (m : io A) (f : A -> io B) w a w' :
  m w = (Returned a, w') -> io_bind m f w = f a w'.
Proof. intros Hm. unfold io_bind. rewrite Hm. reflexivity. Qed.

Lemma io_bind_raised {A B : Type} (m : io A) (f : A -> io B) w e w' :
  m w = (Raised e, w') -> io_bind m f w = (Raised e, w').
Proof. intros Hm. unfold io_bind. rewrite Hm. reflexivity. Qed.

Lemma try_except_returned {A : Type} (m : io A) (h : exn -> io A) w a w' :
  m w = (Returned a, w') -> try_except m h w = (Returned a, w').
Proof. intros Hm. unfold try_except. rewrite Hm. reflexivity. Qed.

Lemma try_except_raised {A : Type} (m : io A) (h : exn -> io A) w e w' :
  m w = (Raised e, w') -> try_except m h w = h e w'.
Proof. intros Hm. unfold try_except. rewrite Hm. reflexivity. Qed.

Lemma raise_for_status_404 (r : response) :
  status_code r = 404 ->
  exists e, raise_for_status r = Raised e /\ exn_class e = HTTPError.
Proof.
  intros H404. unfold raise_for_status. rewrite H404. simpl.
  eexists. split; reflexivity.
Qed.

Lemma raise_for_status_ok (r : response) :
  raise_for_status r = Returned tt -> (status_code r =? 404) = false.
Proof.
  unfold raise_for_status. intros Hok.
  destruct (status_code r =? 404) eqn:E; [|reflexivity].
  apply Z.eqb_eq in E. rewrite E in Hok. simpl in Hok. discriminate.
Qed.

End Running.

(** Unfolds a client method down to the request it sends. *)
Ltac run_request :=
  unfold get, delete, put_json; unfold request, io_bind, try_except, lift, ret, raise;
  cbv beta zeta.

(** ** Not-found and parse failures *)

Section Failures.

Context `{Platform}.
Variable self : client.

Lemma not_found_message (a path b : string) :
  contains "not found" (a ++ path ++ "' not found" ++ b) = true.
Proof.
  apply contains_iff. exists (a ++ path ++ "' "), b.
  rewrite !string_app_assoc. reflexivity.
Qed.

(** The four methods with a 404 case. *)

Lemma read_file_404 w path :
  answers_404 w ->
  exists s w', read_file self path w = (Returned s, w') /\ contains "not found" s = true.
Proof.
  intros H404. unfold read_file. run_request.
  destruct (H404 (Request "GET" (_get_webdav_url self (lstrip_char "/" path)) [] None None))
    as (r & w' & -> & Hst).
  rewrite Hst. simpl. eexists _, _. split; [reflexivity|].
  apply (not_found_message "Error: File '" _ ".").
Qed.

Lemma delete_file_404 w path :
  answers_404 w ->
  exists s w', delete_file self path w = (Returned s, w') /\ contains "not found" s = true.
Proof.
  intros H404. unfold delete_file. run_request.
  destruct (H404 (Request "DELETE" (_get_webdav_url self (lstrip_char "/" path)) [] None None))
    as (r & w' & -> & Hst).
  rewrite Hst. simpl. eexists _, _. split; [reflexivity|].
  apply (not_found_message "Error: File '" _ ".").
Qed.

Lemma list_files_404 w path :
  answers_404 w ->
  exists s w', list_files self path w = (Returned s, w') /\ contains "not found" s = true.
Proof.
  intros H404. unfold list_files. run_request.
  destruct (H404 (Request "PROPFIND" (_get_webdav_url self (lstrip_char "/" path))
                    depth_1 None None)) as (r & w' & -> & Hst).
  rewrite Hst. simpl. eexists _, _. split; [reflexivity|].
  apply (not_found_message "Error: Path '" _ ".").
Qed.

Lemma list_files_raw_404 w path :
  answers_404 w ->
  exists s w', list_files_raw self path w = (Returned (None, Some s), w')
               /\ contains "not found" s = true.
Proof.
  intros H404. unfold list_files_raw. run_request.
  destruct (H404 (Request "PROPFIND" (_get_webdav_url self (lstrip_char "/" path))
                    depth_1 None None)) as (r & w' & -> & Hst).
  rewrite Hst. simpl. eexists _, _. split; [reflexivity|].
  apply (not_found_message "Error: Path '" _ ".").
Qed.

Lemma list_notes_404 w :
  answers_404 w ->
  exists s w', list_notes self w = (Returned s, w') /\ contains "not found" s = true.
Proof.
  intros H404. unfold list_notes. run_request.
  destruct (H404 (Request "GET" (_get_notes_api_url self "notes") [] None None))
    as (r & w' & -> & Hst).
  rewrite Hst. simpl. eexists _, _. split; reflexivity.
Qed.

Lemma list_notes_raw_404 w :
  answers_404 w ->
  exists s w', list_notes_raw self w = (Returned (None, Some s), w')
               /\ contains "not found" s = true.
Proof.
  intros H404. unfold list_notes_raw. run_request.
  destruct (H404 (Request "GET" (_get_notes_api_url self "notes") [] None None))
    as (r & w' & -> & Hst).
  rewrite Hst. simpl. eexists _, _. split; reflexivity.
Qed.

(** The methods that go straight to [raise_for_status]. *)

Ltac raises_on_404 H404 req :=
  run_request;
  let r := fresh "r" in
  let w' := fresh "w'" in
  let Hst := fresh "Hst" in
  let e := fresh "e" in
  let He := fresh "He" in
  let Hc := fresh "Hc" in
  destruct (H404 req) as (r & w' & -> & Hst);
  destruct (raise_for_status_404 r Hst) as (e & He & Hc);
  rewrite He; exists e, w'; split; [reflexivity | exact Hc].

Lemma get_note_404 w note_id :
  answers_404 w ->
  exists e w', get_note self note_id w = (Raised e, w') /\ exn_class e = HTTPError.
Proof.
  intros H404. unfold get_note.
  raises_on_404 H404
    (Request "GET" (_get_notes_api_url self ("notes/" ++ of_Z note_id)) [] None None).
Qed.

Lemma get_note_raw_404 w note_id :
  answers_404 w ->
  exists e w', get_note_raw self note_id w = (Raised e, w') /\ exn_class e = HTTPError.
Proof.
  intros H404. unfold get_note_raw.
  raises_on_404 H404
    (Request "GET" (_get_notes_api_url self ("notes/" ++ of_Z note_id)) [] None None).
Qed.

Lemma delete_note_404 w note_id :
  answers_404 w ->
  exists e w', delete_note self note_id w = (Raised e, w') /\ exn_class e = HTTPError.
Proof.
  intros H404. unfold delete_note.
  raises_on_404 H404
    (Request "DELETE" (_get_notes_api_url self ("notes/" ++ of_Z note_id)) [] None None).
Qed.

Lemma get_calendar_event_404 w calendar_name event_filename :
  answers_404 w ->
  exists e w', get_calendar_event self calendar_name event_filename w = (Raised e, w')
               /\ exn_class e = HTTPError.
Proof.
  intros H404. unfold get_calendar_event.
  raises_on_404 H404
    (Request "GET" (_get_caldav_url self (calendar_name ++ "/" ++ event_filename))
       [] None None).
Qed.

Lemma delete_calendar_event_404 w calendar_name event_filename :
  answers_404 w ->
  exists e w', delete_calendar_event self calendar_name event_filename w = (Raised e, w')
               /\ exn_class e = HTTPError.
Proof.
  intros H404. unfold delete_calendar_event.
  raises_on_404 H404
    (Request "DELETE" (_get_caldav_url self (calendar_name ++ "/" ++ event_filename))
       [] None None).
Qed.

(** Malformed bodies.  The DAV listings parse inside [try]; the REST
    callers decode outside any. *)

Ltac answer Hm req w :=
  run_request;
  let r := fresh "r" in
  let w' := fresh "w'" in
  let Hok := fresh "Hok" in
  let Hxml := fresh "Hxml" in
  let Hjson := fresh "Hjson" in
  destruct (Hm req w) as (r & w' & -> & Hok & Hxml & Hjson);
  try rewrite (raise_for_status_ok r Hok);
  rewrite Hok.

Section Malformed.

Variables e_xml e_json : exn.
Hypothesis Hm : answers_malformed e_xml e_json.

Lemma list_files_malformed w path :
  exists w', list_files self path w
             = (Returned ("Error parsing WebDAV response: " ++ str_exn e_xml), w').
Proof.
  unfold list_files.
  answer Hm (Request "PROPFIND" (_get_webdav_url self (lstrip_char "/" path))
               depth_1 None None) w.
  unfold file_items. rewrite Hxml. simpl. eexists. reflexivity.
Qed.

Lemma list_files_raw_malformed w path :
  exists w', list_files_raw self path w
             = (Returned (None, Some ("Error parsing WebDAV response: " ++ str_exn e_xml)),
                w').
Proof.
  unfold list_files_raw.
  answer Hm (Request "PROPFIND" (_get_webdav_url self (lstrip_char "/" path))
               depth_1 None None) w.
  unfold file_items. rewrite Hxml. simpl. eexists. reflexivity.
Qed.

Lemma list_calendars_malformed w :
  exists w', list_calendars self w
             = (Returned ("Error listing calendars: " ++ str_exn e_xml), w').
Proof.
  unfold list_calendars.
  answer Hm (Request "PROPFIND" (_get_caldav_url self "") depth_1 None None) w.
  unfold collections. rewrite Hxml. simpl. eexists. reflexivity.
Qed.

Lemma list_calendars_raw_malformed w :
  exists w', list_calendars_raw self w
             = (Returned (None, Some ("Error: " ++ str_exn e_xml)), w').
Proof.
  unfold list_calendars_raw.
  answer Hm (Request "PROPFIND" (_get_caldav_url self "") depth_1 None None) w.
  unfold collections. rewrite Hxml. simpl. eexists. reflexivity.
Qed.

Lemma list_addressbooks_malformed w :
  exists w', list_addressbooks self w
             = (Returned ("Error listing address books: " ++ str_exn e_xml), w').
Proof.
  unfold list_addressbooks.
  answer Hm (Request "PROPFIND" (_get_carddav_url self "") depth_1 None None) w.
  unfold collections. rewrite Hxml. simpl. eexists. reflexivity.
Qed.

Lemma list_addressbooks_raw_malformed w :
  exists w', list_addressbooks_raw self w
             = (Returned (None, Some ("Error: " ++ str_exn e_xml)), w').
Proof.
  unfold list_addressbooks_raw.
  answer Hm (Request "PROPFIND" (_get_carddav_url self "") depth_1 None None) w.
  unfold collections. rewrite Hxml. simpl. eexists. reflexivity.
Qed.

Lemma list_calendar_events_malformed w calendar_name start end_ :
  exists w', list_calendar_events self calendar_name start end_ w
             = (Returned ("Error listing events: " ++ str_exn e_xml), w').
Proof.
  unfold list_calendar_events.
  answer Hm (Request "REPORT" (_get_caldav_url self calendar_name) xml_headers
               (Some (calendar_query start end_)) None) w.
  unfold event_blobs. rewrite Hxml. simpl. eexists. reflexivity.
Qed.

Lemma list_calendar_events_raw_malformed w calendar_name start end_ :
  exists w', list_calendar_events_raw self calendar_name start end_ w
             = (Returned (None, Some ("Error: " ++ str_exn e_xml)), w').
Proof.
  unfold list_calendar_events_raw.
  answer Hm (Request "REPORT" (_get_caldav_url self calendar_name) xml_headers
               (Some (calendar_query start end_)) None) w.
  unfold calendar_events. rewrite Hxml. simpl. eexists. reflexivity.
Qed.

Lemma list_contacts_raw_malformed w addressbook_name page limit search_term :
  exists w', list_contacts_raw self addressbook_name page limit search_term w
             = (Returned (None, Some ("Error listing contacts: " ++ str_exn e_xml
                                      ++ " / " ++ str_exn e_xml)), w').
Proof.
  unfold list_contacts_raw.
  answer Hm (Request "REPORT" (_get_carddav_url self addressbook_name) xml_headers
               (Some addressbook_query) None) w.
  unfold report_listing, report_matches. rewrite Hxml. simpl.
  destruct (Hm (Request "PROPFIND" (_get_carddav_url self addressbook_name) depth_1
                  None None) w') as (r2 & w2 & -> & Hok2 & Hxml2 & _).
  rewrite Hok2. unfold fallback_listing. rewrite Hxml2. simpl.
  eexists. reflexivity.
Qed.

Lemma list_notes_malformed w :
  exists w', list_notes self w = (Raised e_json, w').
Proof.
  unfold list_notes.
  answer Hm (Request "GET" (_get_notes_api_url self "notes") [] None None) w.
  unfold response_json. rewrite Hjson. eexists. reflexivity.
Qed.

Lemma list_notes_raw_malformed w :
  exists w', list_notes_raw self w = (Raised e_json, w').
Proof.
  unfold list_notes_raw.
  answer Hm (Request "GET" (_get_notes_api_url self "notes") [] None None) w.
  unfold response_json. rewrite Hjson. eexists. reflexivity.
Qed.

Lemma get_note_malformed w note_id :
  exists w', get_note self note_id w = (Raised e_json, w').
Proof.
  unfold get_note.
  answer Hm (Request "GET" (_get_notes_api_url self ("notes/" ++ of_Z note_id))
               [] None None) w.
  unfold response_json. rewrite Hjson. eexists. reflexivity.
Qed.

Lemma get_note_raw_malformed w note_id :
  exists w', get_note_raw self note_id w = (Raised e_json, w').
Proof.
  unfold get_note_raw.
  answer Hm (Request "GET" (_get_notes_api_url self ("notes/" ++ of_Z note_id))
               [] None None) w.
  unfold response_json. rewrite Hjson. eexists. reflexivity.
Qed.

End Malformed.

End Failures.

(** C3 (as amended): on HTTP 404, [read_file], [delete_file], [list_files]
    and [list_notes] (with [list_files_raw] and [list_notes_raw]) return a
    descriptive text containing "not found" and raise nothing; [get_note],
    [get_note_raw], [delete_note], [get_calendar_event] and
    [delete_calendar_event] have no 404 case, and [raise_for_status] raises
    an [HTTPError] to their caller. *)
Theorem not_found_is_reported `{Platform} (self : client) (w : world) :
  answers_404 w ->
  (forall path, exists s w',
      read_file self path w = (Returned s, w') /\ contains "not found" s = true)
  /\ (forall path, exists s w',
      delete_file self path w = (Returned s, w') /\ contains "not found" s = true)
  /\ (forall path, exists s w',
      list_files self path w = (Returned s, w') /\ contains "not found" s = true)
  /\ (forall path, exists s w',
      list_files_raw self path w = (Returned (None, Some s), w')
      /\ contains "not found" s = true)
  /\ (exists s w', list_notes self w = (Returned s, w') /\ contains "not found" s = true)
  /\ (exists s w', list_notes_raw self w = (Returned (None, Some s), w')
                   /\ contains "not found" s = true)
  /\ (forall note_id, exists e w',
      get_note self note_id w = (Raised e, w') /\ exn_class e = HTTPError)
  /\ (forall note_id, exists e w',
      get_note_raw self note_id w = (Raised e, w') /\ exn_class e = HTTPError)
  /\ (forall note_id, exists e w',
      delete_note self note_id w = (Raised e, w') /\ exn_class e = HTTPError)
  /\ (forall calendar_name event_filename, exists e w',
      get_calendar_event self calendar_name event_filename w = (Raised e, w')
      /\ exn_class e = HTTPError)
  /\ (forall calendar_name event_filename, exists e w',
      delete_calendar_event self calendar_name event_filename w = (Raised e, w')
      /\ exn_class e = HTTPError).
Proof.
  intros H404. repeat split; intros.
  - apply read_file_404, H404.
  - apply delete_file_404, H404.
  - apply list_files_404, H404.
  - apply list_files_raw_404, H404.
  - apply list_notes_404, H404.
  - apply list_notes_raw_404, H404.
  - apply get_note_404, H404.
  - apply get_note_raw_404, H404.
  - apply delete_note_404, H404.
  - apply get_calendar_event_404, H404.
  - apply delete_calendar_event_404, H404.
Qed.

(** The scenario of the specification: [read_file("missing.txt")] on a
    server that answers 404. *)
Lemma not_found_is_reported_witness :
  @answers_404 server_404 tt
  /\ exists s w', @read_file server_404 example_client "missing.txt" tt = (Returned s, w')
                  /\ contains "not found" s = true.
Proof.
  split.
  - intros req. eexists _, _. split; reflexivity.
  - apply (@not_found_is_reported server_404 example_client tt).
    intros req. eexists _, _. split; reflexivity.
Defined.

(** C3 (as stated) fails: on a 404, [delete_note] and [get_note] return no
    text at all; the [HTTPError] of [raise_for_status] reaches the caller. *)
Lemma delete_note_raises_on_404 :
  @delete_note server_404 example_client 7 tt
  = (Raised (Exn HTTPError
       "404 Client Error: Not Found for url: https://cloud.example/index.php/apps/notes/api/v1/notes/7"),
     tt)
  /\ @get_note server_404 example_client 7 tt
     = (Raised (Exn HTTPError
          "404 Client Error: Not Found for url: https://cloud.example/index.php/apps/notes/api/v1/notes/7"),
        tt)
  /\ ~ (exists s w', @delete_note server_404 example_client 7 tt = (Returned s, w')
                     /\ contains "not found" s = true).
Proof.
  split; [reflexivity|]. split; [reflexivity|].
  intros (s & w' & Hrun & _). vm_compute in Hrun. discriminate.
Qed.

(** C4 (as amended): when a response body is malformed XML, every DAV
    listing catches the parse failure and returns a descriptive text (or
    [(None, text)]), [list_contacts_raw] after its fallback has failed the
    same way; the REST callers decode JSON outside any [try], and the decode
    error reaches their caller. *)
Theorem dav_parse_errors_are_reported `{Platform} (self : client) (e_xml e_json : exn) :
  answers_malformed e_xml e_json ->
  forall w,
    (forall path, exists w',
        list_files self path w
        = (Returned ("Error parsing WebDAV response: " ++ str_exn e_xml), w'))
    /\ (forall path, exists w',
        list_files_raw self path w
        = (Returned (None, Some ("Error parsing WebDAV response: " ++ str_exn e_xml)), w'))
    /\ (exists w', list_calendars self w
                   = (Returned ("Error listing calendars: " ++ str_exn e_xml), w'))
    /\ (exists w', list_calendars_raw self w
                   = (Returned (None, Some ("Error: " ++ str_exn e_xml)), w'))
    /\ (exists w', list_addressbooks self w
                   = (Returned ("Error listing address books: " ++ str_exn e_xml), w'))
    /\ (exists w', list_addressbooks_raw self w
                   = (Returned (None, Some ("Error: " ++ str_exn e_xml)), w'))
    /\ (forall calendar_name start end_, exists w',
        list_calendar_events self calendar_name start end_ w
        = (Returned ("Error listing events: " ++ str_exn e_xml), w'))
    /\ (forall calendar_name start end_, exists w',
        list_calendar_events_raw self calendar_name start end_ w
        = (Returned (None, Some ("Error: " ++ str_exn e_xml)), w'))
    /\ (forall addressbook_name page limit search_term, exists w',
        list_contacts_raw self addressbook_name page limit search_term w
        = (Returned (None, Some ("Error listing contacts: " ++ str_exn e_xml
                                 ++ " / " ++ str_exn e_xml)), w'))
    /\ (exists w', list_notes self w = (Raised e_json, w'))
    /\ (exists w', list_notes_raw self w = (Raised e_json, w'))
    /\ (forall note_id, exists w', get_note self note_id w = (Raised e_json, w'))
    /\ (forall note_id, exists w', get_note_raw self note_id w = (Raised e_json, w')).
Proof.
  intros Hm w. repeat split; intros.
  - eapply list_files_malformed, Hm.
  - eapply list_files_raw_malformed, Hm.
  - eapply list_calendars_malformed, Hm.
  - eapply list_calendars_raw_malformed, Hm.
  - eapply list_addressbooks_malformed, Hm.
  - eapply list_addressbooks_raw_malformed, Hm.
  - eapply list_calendar_events_malformed, Hm.
  - eapply list_calendar_events_raw_malformed, Hm.
  - eapply list_contacts_raw_malformed, Hm.
  - eapply list_notes_malformed, Hm.
  - eapply list_notes_raw_malformed, Hm.
  - eapply get_note_malformed, Hm.
  - eapply get_note_raw_malformed, Hm.
Qed.

(** A listing of files on a server whose bodies are not XML. *)
Lemma dav_parse_errors_are_reported_witness :
  @answers_malformed server_garbage no_xml no_json
  /\ exists w', @list_files server_garbage example_client "Documents" tt
                = (Returned ("Error parsing WebDAV response: " ++ str_exn no_xml), w').
Proof.
  split.
  - intros req w. eexists _, _. repeat split; reflexivity.
  - apply (@dav_parse_errors_are_reported server_garbage example_client no_xml no_json).
    intros req w. eexists _, _. repeat split; reflexivity.
Defined.

(** C4 (as stated) fails: [list_notes] on a 200 answer whose body is not
    JSON returns no error text; the decode error is raised to the caller. *)
Lemma list_notes_raises_on_malformed_json :
  @list_notes server_garbage example_client tt = (Raised no_json, tt)
  /\ ~ (exists s w', @list_notes server_garbage example_client tt = (Returned s, w')).
Proof.
  split; [reflexivity|].
  intros (s & w' & Hrun). vm_compute in Hrun. discriminate.
Qed.

(** ** The raw contact methods always return a pair *)


(** ** Deck: the bodies of the partial updates *)

Lemma dict_get_in {A : Type} (k : string) (d : list (string * A)) (v : A) :
  dict_get k d = Some v -> In k (map fst d).
Proof.
  unfold dict_get. intros Hget.
  destruct (List.find (fun kv => String.eqb (fst kv) k) d) as [kv|] eqn:Hfind; [|discriminate].
  apply find_some in Hfind as [Hin Heq]. apply String.eqb_eq in Heq as <-.
  apply in_map. exact Hin.
Qed.

Section Deck.

Context `{Platform}.
Variable self : client.

Lemma update_deck_card_sends board_id stack_id card_id title description order duedate archived :
  sends_put
    (update_deck_card self board_id stack_id card_id title description order duedate archived)
    (_get_deck_api_url self ("boards/" ++ of_Z board_id ++ "/stacks/" ++ of_Z stack_id
                             ++ "/cards/" ++ of_Z card_id))
    (update_deck_card_data title description order duedate archived)
    ("Card " ++ of_Z card_id ++ " updated.").
Proof.
  intros w. unfold update_deck_card. run_request.
  destruct (session_request _ w) as [[r|e] w']; [|reflexivity].
  destruct (raise_for_status r) as [[]|e]; reflexivity.
Qed.

Lemma update_deck_stack_sends board_id stack_id title order :
  sends_put
    (update_deck_stack self board_id stack_id title order)
    (_get_deck_api_url self ("boards/" ++ of_Z board_id ++ "/stacks/" ++ of_Z stack_id))
    (update_deck_stack_data title order)
    ("Stack " ++ of_Z stack_id ++ " updated.").
Proof.
  intros w. unfold update_deck_stack. run_request.
  destruct (session_request _ w) as [[r|e] w']; [|reflexivity].
  destruct (raise_for_status r) as [[]|e]; reflexivity.
Qed.

Lemma update_deck_label_sends board_id label_id title color :
  sends_put
    (update_deck_label self board_id label_id title color)
    (_get_deck_api_url self ("boards/" ++ of_Z board_id ++ "/labels/" ++ of_Z label_id))
    (update_deck_label_data title color)
    ("Label " ++ of_Z label_id ++ " updated.").
Proof.
  intros w. unfold update_deck_label. run_request.
  destruct (session_request _ w) as [[r|e] w']; [|reflexivity].
  destruct (raise_for_status r) as [[]|e]; reflexivity.
Qed.

End Deck.

Ltac each_parameter :=
  repeat match goal with
         | o : option string |- _ => destruct o as [[|? ?]|]
         | o : option Z |- _ => destruct o
         | o : option bool |- _ => destruct o
         end.

(** C8 (as amended): in the PUT body of [update_deck_card],
    [update_deck_stack] and [update_deck_label], [description], [order],
    [duedate] and [archived] are present if and only if their parameter is
    not [None]; [title] (all three) and [color] (labels) are present if and
    only if their parameter is neither [None] nor the empty string; a
    present field carries its parameter, and the body has no other field. *)
Theorem partial_update_bodies (title description duedate color : option string)
    (order : option Z) (archived : option bool) :
  let card := update_deck_card_data title description order duedate archived in
  let stack := update_deck_stack_data title order in
  let label := update_deck_label_data title color in
  (dict_get "title" card = sent_text (truthy_opt title) title
   /\ dict_get "description" card = JStr <$> description
   /\ dict_get "order" card = JInt <$> order
   /\ dict_get "duedate" card = JStr <$> duedate
   /\ dict_get "archived" card = JBool <$> archived
   /\ forall k v, dict_get k card = Some v ->
                  In k ["title"; "description"; "order"; "duedate"; "archived"])
  /\ (dict_get "title" stack = sent_text (truthy_opt title) title
      /\ dict_get "order" stack = JInt <$> order
      /\ forall k v, dict_get k stack = Some v -> In k ["title"; "order"])
  /\ (dict_get "title" label = sent_text (truthy_opt title) title
      /\ dict_get "color" label = sent_text (truthy_opt color) color
      /\ forall k v, dict_get k label = Some v -> In k ["title"; "color"]).
Proof.
  cbv zeta. repeat split;
    try (intros k v Hget; apply dict_get_in in Hget; revert Hget);
    each_parameter; cbn; tauto || reflexivity.
Qed.

(** C8 (as stated) fails: an empty [title] is not [None], and the body
    leaves the field out all the same. *)
Lemma empty_title_is_left_out :
  update_deck_card_data (Some "") None None None None = []
  /\ dict_has "title" (update_deck_card_data (Some "") None None None None) = false
  /\ update_deck_stack_data (Some "") (Some 2) = [("order", JInt 2)]
  /\ update_deck_label_data (Some "Urgent") (Some "") = [("title", JStr "Urgent")].
Proof. repeat split; reflexivity. Qed.

(** ** The VCard decoder *)








(** ** Unfolding *)






Section Unfolding.

Variables (pre a b : string) (c : ascii).
Hypothesis c_not_cr : c <> CR.
Hypothesis c_not_lf : c <> LF.
Hypothesis c_not_space : c <> " "%char.
Hypothesis a_no_cr : occurs CR a = false.
Hypothesis a_no_lf : occurs LF a = false.











End Unfolding.




(** ** File listings *)

Lemma for_each_Forall2 {A B : Type} (f : A -> outcome B) (xs : list A) (ys : list B) :
  for_each f xs = Returned ys -> Forall2 (fun x y => f x = Returned y) xs ys.
Proof.
  revert ys. induction xs as [|x xs IH]; intros ys; simpl.
  - intros [= <-]. constructor.
  - destruct (f x) as [y|e] eqn:Hx; [|discriminate].
    destruct (for_each f xs) as [ys'|e]; [|discriminate].
    intros [= <-]. constructor; [exact Hx | apply IH; reflexivity].
Qed.










(** ** Sorting, slicing, paging *)

Section Sorting.

Context {A : Type} (key : A -> string).

Lemma insert_by_perm (x : A) (l : list A) : Permutation (insert_by key x l) (x :: l).
Proof.
  induction l as [|y l IH]; simpl; [reflexivity|].
  destruct (String.leb (key x) (key y)); [reflexivity|].
  rewrite IH. apply perm_swap.
Qed.

Lemma sort_by_perm (l : list A) : Permutation (sort_by key l) l.
Proof.
  induction l as [|x l IH]; simpl; [reflexivity|].
  rewrite insert_by_perm, IH. reflexivity.
Qed.






Lemma sort_by_length (l : list A) : List.length (sort_by key l) = List.length l.
Proof. apply Permutation_length, sort_by_perm. Qed.


End Sorting.

Lemma py_slice_nonneg {A : Type} (l : list A) (start len : Z) :
  0 <= start -> 0 <= len ->
  py_slice l start (start + len) = firstn (Z.to_nat len) (skipn (Z.to_nat start) l).
Proof.
  intros Hstart Hlen. unfold py_slice, slice_index.
  set (n := Z.of_nat (List.length l)).
  destruct (Z.ltb_spec start 0); [lia|].
  destruct (Z.ltb_spec (start + len) 0); [lia|].
  destruct (Z.le_gt_cases n start) as [Hout|Hin].
  - rewrite (Z.min_r start n) by lia.
    rewrite !(skipn_all2 (n := _)) by (unfold n in *; lia).
    rewrite !firstn_nil. reflexivity.
  - rewrite (Z.min_l start n) by lia.
    destruct (Z.le_gt_cases (start + len) n) as [Hfits|Hlong].
    + rewrite Z.min_l by lia. f_equal. lia.
    + rewrite Z.min_r by lia.
      rewrite !firstn_all2; [reflexivity | |]; rewrite length_skipn; unfold n in *; lia.
Qed.


Lemma total_pages_ceil (n limit : Z) :
  0 <= n -> 0 < limit ->
  total_pages n limit = (n + limit - 1) / limit
  /\ n <= total_pages n limit * limit < n + limit.
Proof.
  intros Hn Hlimit. unfold total_pages.
  destruct (Z.eqb_spec limit 0); [lia|]. split; [reflexivity|].
  pose proof (Z.div_mod (n + limit - 1) limit) as Hdiv.
  pose proof (Z.mod_pos_bound (n + limit - 1) limit Hlimit) as Hmod.
  nia.
Qed.


(** ** Contacts *)












Section Contacts.

Context `{Platform}.
Variable self : client.



End Contacts.


(** ** Search and order of the REPORT path *)











Lemma total_pages_of_nothing (limit : positive) : total_pages 0 (Z.pos limit) = 0.
Proof.
  unfold total_pages. destruct (Z.eqb_spec (Z.pos limit) 0) as [Habs|_]; [discriminate|].
  apply Z.div_small. lia.
Qed.

(** C2, on the code: a search that matches no contact gives [total = 0]
    and an empty page; the widget of [nc_list_contacts_widget] shows
    [total_pages = 1], and the text of [list_contacts], computed in the same
    [fetch], says "Page 1/0": for a positive limit its [total_pages] of an
    empty result is 0. *)
Theorem empty_search_page_count :
  @list_contacts_raw server_contacts example_client "contacts" 1 30 (Some "zzz") tt
  = (Returned (Some (ContactsPage [] 0), None), tt)
  /\ @list_contacts server_contacts example_client "contacts" 1 30 (Some "zzz") tt
     = (Returned ("Contacts in contacts (Page 1/0, 0 total):" ++ String LF ""), tt)
  /\ @nc_list_contacts_widget_fetch server_contacts example_client "contacts" 1 "zzz" tt
     = (Returned (ToolContacts "contacts (Page 1/1)" []
                    ("Contacts in contacts (Page 1/0, 0 total):" ++ String LF "")), tt)
  /\ widget_total_pages 0 = 1
  /\ forall limit : positive, total_pages 0 (Z.pos limit) = 0.
Proof.
  split; [vm_compute; reflexivity|].
  split; [vm_compute; reflexivity|].
  split; [vm_compute; reflexivity|].
  split; [reflexivity | exact total_pages_of_nothing].
Qed.

(** * Further properties of the client *)

(** ** The base URL *)

Lemma rstrip_by_no_trailing (p : ascii -> bool) (s t : string) (c : ascii) :
  p c = true -> rstrip_by p s <> t ++ String c "".
Proof.
  intros Hc. revert t. induction s as [|a s IH]; intros t; simpl.
  - destruct t; discriminate.
  - destruct (is_empty (rstrip_by p s) && p a)%bool eqn:Hdrop.
    + destruct t; discriminate.
    + destruct t as [|b t]; simpl.
      * intros [= -> Hr]. rewrite Hr, Hc in Hdrop. discriminate.
      * intros [= _ Hr]. exact (IH t Hr).
Qed.

Lemma rstrip_by_snoc (p : ascii -> bool) (s : string) (c : ascii) :
  p c = true -> rstrip_by p (s ++ String c "") = rstrip_by p s.
Proof.
  intros Hc. induction s as [|a s IH]; simpl.
  - rewrite Hc. reflexivity.
  - rewrite IH. reflexivity.
Qed.

Lemma rstrip_by_idempotent (p : ascii -> bool) (s : string) :
  rstrip_by p (rstrip_by p s) = rstrip_by p s.
Proof.
  induction s as [|a s IH]; simpl; [reflexivity|].
  destruct (is_empty (rstrip_by p s) && p a)%bool eqn:Hdrop; [reflexivity|].
  simpl. rewrite IH, Hdrop. reflexivity.
Qed.

(** X1: The base URL the client keeps ends with exactly one slash, whatever
    the number of slashes the configured URL ends with, and building a
    client from that base changes nothing. *)
Theorem base_ends_with_one_slash (url username password : string) :
  let b := base (new_client url username password) in
  b = rstrip_char "/" url ++ "/"
  /\ (forall t, rstrip_char "/" url <> t ++ "/")
  /\ base (new_client (url ++ "/") username password) = b
  /\ base (new_client b username password) = b.
Proof.
  cbv zeta. unfold new_client, rstrip_char. cbn [base].
  split; [reflexivity|].
  split; [intros t; apply rstrip_by_no_trailing; reflexivity|].
  split.
  - rewrite rstrip_by_snoc by reflexivity. reflexivity.
  - rewrite rstrip_by_snoc by reflexivity. rewrite rstrip_by_idempotent. reflexivity.
Qed.

(** ** What makes a method raise *)

Ltac settle_outcome :=
  repeat first
    [ reflexivity
    | eexists; reflexivity
    | progress cbv beta iota zeta
    | match goal with
      | |- context [match ?x with _ => _ end] =>
          lazymatch x with
          | context [match _ with _ => _ end] => fail
          | _ => destruct x
          end
      end ].


Section HttpFailures.

Context `{Platform}.
Variable self : client.



End HttpFailures.

Ltac one_request :=
  intros w; run_request; cbv beta;
  destruct (session_request _ w) as [[r|e] w']; [|reflexivity];
  settle_outcome.

Section Mutations.

Context `{Platform}.
Variable self : client.

(** X4: Creating a note, deleting a note and creating an event send exactly
    one request, the one the method builds: the server is left in the
    state of that request, whether it raises, is refused with an error
    status, or is answered with a body the method cannot read.  There is no
    retry and no second request. *)
Theorem note_and_event_mutations_are_sent_once (title content category description : string)
    (uid calendar_name start_dt end_dt : string) (note_id : Z) :
  sends_once (create_note self title content category)
    (Request "POST" (_get_notes_api_url self "notes") [] None
       (Some [("title", JStr title); ("content", JStr content);
              ("category", JStr category)]))
  /\ sends_once (delete_note self note_id)
       (Request "DELETE" (_get_notes_api_url self ("notes/" ++ of_Z note_id)) [] None None)
  /\ sends_once (create_calendar_event self uid calendar_name title start_dt end_dt description)
       (Request "PUT" (_get_caldav_url self (calendar_name ++ "/" ++ uid ++ ".ics"))
          [("Content-Type", "text/calendar; charset=utf-8")]
          (Some (event_ical uid title start_dt end_dt description)) None).
Proof.
  repeat split.
  - unfold create_note, post_json. one_request.
  - unfold delete_note. one_request.
  - unfold create_calendar_event, put_data. one_request.
Qed.

(** X5: Creating, reordering and deleting a card and creating a recipe send
    exactly one request, the one the method builds, and leave the server
    in the state of that request whatever its outcome and whatever the
    answer holds. *)
Theorem deck_and_recipe_mutations_are_sent_once (title description ctype : string)
    (board_id stack_id card_id order : Z) (duedate : option string)
    (target_stack_id : option Z) (ingredients instructions : json) :
  let card := _get_deck_api_url self ("boards/" ++ of_Z board_id ++ "/stacks/"
                                      ++ of_Z stack_id ++ "/cards/" ++ of_Z card_id) in
  sends_once (create_deck_card self board_id stack_id title description ctype order duedate)
    (Request "POST"
       (_get_deck_api_url self ("boards/" ++ of_Z board_id ++ "/stacks/" ++ of_Z stack_id
                                ++ "/cards")) [] None
       (Some (create_deck_card_data title description ctype order duedate)))
  /\ sends_once (reorder_deck_card self board_id stack_id card_id order target_stack_id)
       (Request "PUT" card [] None (Some (reorder_deck_card_data order target_stack_id)))
  /\ sends_once (delete_deck_card self board_id stack_id card_id)
       (Request "DELETE" card [] None None)
  /\ sends_once (create_recipe self title description ingredients instructions)
       (Request "POST" (_get_cookbook_api_url self "recipes") [] None
          (Some (create_recipe_data title description ingredients instructions))).
Proof.
  cbv zeta. repeat split.
  - unfold create_deck_card, post_json. one_request.
  - unfold reorder_deck_card. one_request.
  - unfold delete_deck_card. one_request.
  - unfold create_recipe, post_json. one_request.
Qed.



End Mutations.

(** ** Text listings and raw listings *)

Ltac same_listing :=
  intros w; run_request; cbv beta;
  destruct (session_request _ w) as [[r|e] w']; [|reflexivity];
  repeat first
    [ reflexivity
    | eexists; split; reflexivity
    | progress cbv beta iota zeta
    | match goal with
      | |- context [match ?x with _ => _ end] =>
          lazymatch x with
          | context [match _ with _ => _ end] => fail
          | _ => destruct x
          end
      end ].

Section Renderings.

Context `{Platform}.
Variable self : client.

(** X7: On the same server state, the text [list_files] returns is the
    rendering of what [list_files_raw] returns: the header and one line per
    record when the raw variant has data, its error when it has none, and
    the same exception when it raises.  The raw variant never returns both
    data and an error, or neither. *)
Theorem file_listing_renders_raw_listing (path : string) (w : world) :
  match list_files_raw self path w with
  | (Returned (Some items, None), w') =>
      list_files self path w
      = (Returned (fold_left (fun output item => output ++ file_line item) items
                     ("Listing of " ++ lstrip_char "/" path ++ ":" ++ String LF "")), w')
  | (Returned (None, Some error), w') => list_files self path w = (Returned error, w')
  | (Raised e, w') => list_files self path w = (Raised e, w')
  | (Returned _, _) => False
  end.
Proof.
  revert w. unfold list_files_raw, list_files. same_listing.
Qed.

(** X8: On the same server state, the text [list_calendars]
    ([list_addressbooks]) returns is the rendering of what its raw variant
    returns: the header and one line per record when the raw variant has
    data, its error under the text method's own label when it has none, and
    the same exception when it raises.  A raw variant never returns both
    data and an error, or neither. *)
Theorem collection_listings_render_raw_listings (w : world) :
  match list_calendars_raw self w with
  | (Returned (Some calendars, None), w') =>
      list_calendars self w
      = (Returned (fold_left (fun output cal => output ++ collection_line cal) calendars
                     ("Calendars:" ++ String LF "")), w')
  | (Returned (None, Some error), w') =>
      exists e, error = "Error: " ++ e
                /\ list_calendars self w
                   = (Returned ("Error listing calendars: " ++ e), w')
  | (Raised e, w') => list_calendars self w = (Raised e, w')
  | (Returned _, _) => False
  end
  /\ match list_addressbooks_raw self w with
     | (Returned (Some books, None), w') =>
         list_addressbooks self w
         = (Returned (fold_left (fun output book => output ++ collection_line book) books
                        ("Address Books:" ++ String LF "")), w')
     | (Returned (None, Some error), w') =>
         exists e, error = "Error: " ++ e
                   /\ list_addressbooks self w
                      = (Returned ("Error listing address books: " ++ e), w')
     | (Raised e, w') => list_addressbooks self w = (Raised e, w')
     | (Returned _, _) => False
     end.
Proof.
  split.
  - revert w. unfold list_calendars_raw, list_calendars. same_listing.
  - revert w. unfold list_addressbooks_raw, list_addressbooks. same_listing.
Qed.

End Renderings.

(** ** Calendars and address books *)

Lemma collection_item_kept (marker : string) (e : element) (c : collection) :
  collection_item marker e = Returned (Some c) -> marked marker e = true /\ lists_as e c.
Proof.
  unfold collection_item, marked, lists_as, first_prop, bind, text_of, find_in, last_segment.
  destruct (find (DAV "href") e) as [h|]; [|discriminate].
  destruct (find (DAV "propstat") e) as [propstat|]; [|discriminate].
  destruct (find (DAV "prop") propstat) as [prop|]; [|discriminate].
  destruct (has_marker marker (find (DAV "resourcetype") prop)); [|discriminate].
  destruct (find (DAV "displayname") prop) as [d|] eqn:Hd.
  - intros [= <-]. split; [reflexivity|]. exists h, prop. rewrite Hd. repeat split.
  - destruct (text h) as [href|] eqn:Hh; [|discriminate].
    intros [= <-]. split; [reflexivity|]. exists h, prop. rewrite Hd, Hh. repeat split.
Qed.

Lemma collection_item_dropped (marker : string) (e : element) :
  collection_item marker e = Returned None -> marked marker e = false.
Proof.
  unfold collection_item, marked, first_prop, bind, text_of, find_in, last_segment.
  destruct (find (DAV "href") e) as [h|]; [|discriminate].
  destruct (find (DAV "propstat") e) as [propstat|]; [|discriminate].
  destruct (find (DAV "prop") propstat) as [prop|]; [|discriminate].
  destruct (has_marker marker (find (DAV "resourcetype") prop)); [|reflexivity].
  destruct (find (DAV "displayname") prop) as [d|]; [discriminate|].
  destruct (text h); discriminate.
Qed.

Lemma collections_are_the_marked `{Platform} (marker body : string) (cols : list collection) :
  collections marker body = Returned cols ->
  exists tree,
    etree_fromstring body = Returned tree
    /\ Forall2 lists_as (List.filter (marked marker) (findall (DAV "response") tree)) cols.
Proof.
  unfold collections, bind.
  destruct (etree_fromstring body) as [tree|]; [|discriminate].
  destruct (for_each _ _) as [found|] eqn:Hfound; [|discriminate].
  intros [= <-]. exists tree. split; [reflexivity|].
  apply for_each_Forall2 in Hfound.
  induction Hfound as [|e [c|] es found He _ IH]; cbn.
  - constructor.
  - destruct (collection_item_kept marker e c He) as [-> Hc]. constructor; assumption.
  - rewrite (collection_item_dropped marker e He). exact IH.
Qed.

(** X9: The calendars (address books) a successful listing returns are the
    responses, in the body of the answer to its PROPFIND, whose resource
    type holds the calendar (address book) marker, all of them and in the
    order of the body; a response without the marker is left out.  Each
    record has the href as the server wrote it and, as name, the display
    name or, without one, the last segment of the href.  No list is
    returned when the request has raised. *)
Theorem collections_are_filtered_by_marker `{Platform} (self : client) (w : world) :
  match session_request (Request "PROPFIND" (_get_caldav_url self "") depth_1 None None) w with
  | (Returned r, _) =>
      match list_calendars_raw self w with
      | (Returned (Some calendars, _), _) =>
          exists tree,
            etree_fromstring (content r) = Returned tree
            /\ Forall2 lists_as
                 (List.filter (marked (CALDAV "calendar")) (findall (DAV "response") tree))
                 calendars
      | _ => True
      end
  | (Raised _, _) =>
      match list_calendars_raw self w with
      | (Returned (Some _, _), _) => False
      | _ => True
      end
  end
  /\ match session_request (Request "PROPFIND" (_get_carddav_url self "") depth_1 None None) w
     with
     | (Returned r, _) =>
         match list_addressbooks_raw self w with
         | (Returned (Some books, _), _) =>
             exists tree,
               etree_fromstring (content r) = Returned tree
               /\ Forall2 lists_as
                    (List.filter (marked (CARDDAV "addressbook"))
                       (findall (DAV "response") tree))
                    books
         | _ => True
         end
     | (Raised _, _) =>
         match list_addressbooks_raw self w with
         | (Returned (Some _, _), _) => False
         | _ => True
         end
     end.
Proof.
  split.
  - unfold list_calendars_raw. run_request.
    destruct (session_request _ w) as [[r|e] w']; [|exact I].
    destruct (raise_for_status r) as [[]|e]; [|exact I].
    destruct (collections (CALDAV "calendar") (content r)) as [cols|e] eqn:Hcols; [|exact I].
    exact (collections_are_the_marked _ _ _ Hcols).
  - unfold list_addressbooks_raw. run_request.
    destruct (session_request _ w) as [[r|e] w']; [|exact I].
    destruct (raise_for_status r) as [[]|e]; [|exact I].
    destruct (collections (CARDDAV "addressbook") (content r)) as [cols|e] eqn:Hcols;
      [|exact I].
    exact (collections_are_the_marked _ _ _ Hcols).
Qed.

(** ** Calendar events *)






(** ** The text methods for contacts *)

Section ContactTexts.

Context `{Platform}.
Variable self : client.



End ContactTexts.

(** ** Recipes: ingredients and instructions *)








Lemma split_clean (c : ascii) (a : string) : occurs c a = false -> split c a = [a].
Proof.
  induction a as [|x a IH]; simpl; [reflexivity|].
  intros Hocc. apply orb_false_iff in Hocc as [Hx Ha].
  rewrite Hx, (IH Ha). reflexivity.
Qed.





(** ** Deck: the bodies of creation and reordering *)

(** X13: The body of [create_deck_card] always carries title, description, type
    and order, and carries [duedate] only for a due date that is neither
    [None] nor empty.  The body of [reorder_deck_card] always carries the
    order, and carries [stackId] only for a target stack that is neither
    [None] nor 0: a move to stack 0 cannot be asked for.  Archiving and
    unarchiving send [archived] alone. *)
Theorem deck_card_bodies (title description ctype : string) (order : Z)
    (duedate : option string) (target_stack_id : option Z) (archived : bool) :
  let card := create_deck_card_data title description ctype order duedate in
  let move := reorder_deck_card_data order target_stack_id in
  (dict_get "title" card = Some (JStr title)
   /\ dict_get "description" card = Some (JStr description)
   /\ dict_get "type" card = Some (JStr ctype)
   /\ dict_get "order" card = Some (JInt order)
   /\ dict_get "duedate" card = sent_text (truthy_opt duedate) duedate
   /\ forall k v, dict_get k card = Some v ->
                  In k ["title"; "description"; "type"; "order"; "duedate"])
  /\ (dict_get "order" move = Some (JInt order)
      /\ dict_get "stackId" move
         = (if truthy_int target_stack_id then JInt <$> target_stack_id else None)
      /\ reorder_deck_card_data order (Some 0) = reorder_deck_card_data order None
      /\ forall k v, dict_get k move = Some v -> In k ["order"; "stackId"])
  /\ update_deck_card_data None None None None (Some archived) = [("archived", JBool archived)].
Proof.
  cbv zeta. repeat split;
    try (intros k v Hget; apply dict_get_in in Hget; revert Hget);
    try destruct duedate as [[|? ?]|]; try destruct target_stack_id as [[|?|?]|];
    cbn; tauto || reflexivity.
Qed.

(** ** Configuration *)

Lemma with_client_unconfigured `{Platform} (s : settings) (method : client -> io string)
    (w : world) :
  configured s = false -> with_client s method w = (Returned configuration_missing, w).
Proof.
  unfold configured, with_client, _get_client. intros Hmissing.
  destruct (truthy_opt (nextcloud_url s)), (truthy_opt (nextcloud_username s)),
    (truthy_opt (nextcloud_password s)); try discriminate; reflexivity.
Qed.

Lemma with_client_configured `{Platform} (s : settings) (method : client -> io string) :
  configured s = true ->
  with_client s method
  = method (new_client (default "" (nextcloud_url s)) (default "" (nextcloud_username s))
              (default "" (nextcloud_password s))).
Proof.
  unfold configured, with_client, _get_client. intros Hset.
  destruct (truthy_opt (nextcloud_url s)), (truthy_opt (nextcloud_username s)),
    (truthy_opt (nextcloud_password s)); try discriminate; reflexivity.
Qed.

(** X14: When the URL, the user name or the password is missing or empty, every
    simple tool returns the configuration message and sends nothing: the
    server is left as it was. *)
Theorem missing_configuration_stops_the_tools `{Platform} (s : settings) :
  configured s = false ->
  forall (w : world) (path content title category : string)
         (note_id board_id stack_id card_id : Z),
    nc_read_file s path w = (Returned configuration_missing, w)
    /\ nc_write_file s path content w = (Returned configuration_missing, w)
    /\ nc_delete_file s path w = (Returned configuration_missing, w)
    /\ nc_create_directory s path w = (Returned configuration_missing, w)
    /\ nc_create_note s title content category w = (Returned configuration_missing, w)
    /\ nc_delete_note s note_id w = (Returned configuration_missing, w)
    /\ nc_archive_deck_card s board_id stack_id card_id w
       = (Returned configuration_missing, w)
    /\ nc_unarchive_deck_card s board_id stack_id card_id w
       = (Returned configuration_missing, w).
Proof.
  intros Hmissing w path content title category note_id board_id stack_id card_id.
  repeat split; apply with_client_unconfigured, Hmissing.
Qed.

Lemma missing_configuration_stops_the_tools_witness :
  configured settings_without_password = false
  /\ @nc_delete_file server_404 settings_without_password "notes.txt" tt
     = (Returned configuration_missing, tt).
Proof.
  split; [reflexivity|].
  apply (@missing_configuration_stops_the_tools server_404 settings_without_password
           eq_refl tt "notes.txt" "" "" "" 0 0 0 0).
Defined.

(** With a complete configuration a tool is the client method, on a client
    whose base URL ends with exactly one slash; archiving a card sends one
    PUT whose body is [{"archived": true}]. *)
Theorem configured_tools_call_the_client `{Platform} (s : settings) :
  configured s = true ->
  let client := new_client (default "" (nextcloud_url s)) (default "" (nextcloud_username s))
                  (default "" (nextcloud_password s)) in
  (forall path, nc_read_file s path = read_file client path)
  /\ (forall path content, nc_write_file s path content = write_file client path content)
  /\ (forall path, nc_delete_file s path = delete_file client path)
  /\ (forall path, nc_create_directory s path = create_directory client path)
  /\ (forall note_id, nc_delete_note s note_id = delete_note client note_id)
  /\ base client = rstrip_char "/" (default "" (nextcloud_url s)) ++ "/"
  /\ (forall board_id stack_id card_id,
         sends_put (nc_archive_deck_card s board_id stack_id card_id)
           (_get_deck_api_url client ("boards/" ++ of_Z board_id ++ "/stacks/"
                                      ++ of_Z stack_id ++ "/cards/" ++ of_Z card_id))
           [("archived", JBool true)]
           ("Card " ++ of_Z card_id ++ " updated.")).
Proof.
  intros Hset. cbv zeta. repeat split; intros;
    try (unfold nc_read_file, nc_write_file, nc_delete_file, nc_create_directory,
           nc_delete_note; apply with_client_configured, Hset).
  unfold nc_archive_deck_card. rewrite (with_client_configured s _ Hset).
  apply update_deck_card_sends.
Qed.

Lemma configured_tools_call_the_client_witness :
  configured (Settings (Some "https://cloud.example//") (Some "ada") (Some "secret")) = true
  /\ @nc_read_file server_404
       (Settings (Some "https://cloud.example//") (Some "ada") (Some "secret")) "a.txt"
     = @read_file server_404 (new_client "https://cloud.example//" "ada" "secret") "a.txt".
Proof.
  split; [reflexivity|].
  apply (@configured_tools_call_the_client server_404
           (Settings (Some "https://cloud.example//") (Some "ada") (Some "secret")) eq_refl).
Defined.

(** ** The last part of a split: extensions and file names *)

Lemma split_ends_with (c : ascii) (stem ext : string) :
  occurs c ext = false ->
  exists p ps, split c (stem ++ String c ext) = ((p :: ps) ++ [ext])%list.
Proof.
  intros Hext. induction stem as [|a stem (p & ps & IH)]; simpl.
  - rewrite Ascii.eqb_refl, (split_clean c ext Hext). exists "", []. reflexivity.
  - rewrite IH. destruct (Ascii.eqb a c).
    + exists "", (p :: ps). reflexivity.
    + exists (String a p), ps. reflexivity.
Qed.

Lemma split_last (c : ascii) (stem ext : string) :
  occurs c ext = false -> List.last (split c (stem ++ String c ext)) "" = ext.
Proof.
  intros Hext. destruct (split_ends_with c stem ext Hext) as (p & ps & ->).
  apply last_last.
Qed.

Lemma occurs_app (c : ascii) (a b : string) :
  occurs c (a ++ b) = (occurs c a || occurs c b)%bool.
Proof.
  induction a as [|x a IH]; simpl; [reflexivity|]. rewrite IH, orb_assoc. reflexivity.
Qed.


(** X15: The icon of a file is chosen by what follows its last dot, letter case
    apart: a name without a dot, and an extension the table does not hold,
    get the generic text icon. *)
Theorem file_icon_follows_the_extension :
  (forall name, occurs "." name = false -> _get_file_icon name = "text-x-generic-symbolic")
  /\ (forall stem ext,
         occurs "." ext = false ->
         _get_file_icon (stem ++ String "." ext) = icon_of (lower ext))
  /\ (forall stem1 stem2 ext1 ext2,
         occurs "." ext1 = false -> occurs "." ext2 = false ->
         lower ext1 = lower ext2 ->
         _get_file_icon (stem1 ++ String "." ext1) = _get_file_icon (stem2 ++ String "." ext2))
  /\ (forall ext, dict_get ext icons = None -> icon_of ext = "text-x-generic-symbolic").
Proof.
  assert (forall stem ext,
             occurs "." ext = false ->
             _get_file_icon (stem ++ String "." ext) = icon_of (lower ext)) as Hext.
  { intros stem ext Hdot. unfold _get_file_icon.
    rewrite occurs_app. cbn [occurs]. rewrite Ascii.eqb_refl, orb_true_r.
    rewrite split_last by exact Hdot. reflexivity. }
  split; [|split; [exact Hext|split]].
  - intros name Hdot. unfold _get_file_icon. rewrite Hdot. reflexivity.
  - intros stem1 stem2 ext1 ext2 H1 H2 Hsame. rewrite !Hext, Hsame by assumption. reflexivity.
  - intros ext Hnone. unfold icon_of. rewrite Hnone. reflexivity.
Qed.

Lemma file_icon_follows_the_extension_witness :
  occurs "." "PDF" = false
  /\ _get_file_icon ("report.final" ++ String "." "PDF") = "x-office-document-symbolic".
Proof.
  split; [reflexivity|].
  destruct file_icon_follows_the_extension as (_ & Hext & _).
  rewrite (Hext "report.final" "PDF" eq_refl). reflexivity.
Defined.

(** ** Contact references *)







(** ** The fallback listing *)





(** ** Pages at and beyond the bounds *)

Lemma py_slice_length {A : Type} (l : list A) (start len : Z) :
  0 <= len -> (List.length (py_slice l start (start + len)) <= Z.to_nat len)%nat.
Proof.
  intros Hlen. unfold py_slice, slice_index.
  rewrite length_firstn. set (n := Z.of_nat (List.length l)).
  assert (0 <= n) by (unfold n; lia).
  etransitivity; [apply Nat.le_min_l|].
  destruct (Z.ltb_spec start 0), (Z.ltb_spec (start + len) 0); lia.
Qed.

(** X18: With a limit [limit > 0]: a page never holds more than [limit]
    contacts; the pages 1 to [total_pages] all hold at least one; the pages
    after [total_pages], and page 0, are empty and raise nothing; and
    [total] is the same on every page. *)
Theorem pages_within_and_beyond_bounds (cs : list vcard) (limit page : Z) :
  0 < limit ->
  let n := Z.of_nat (List.length cs) in
  total (paginate page limit cs) = n
  /\ (List.length (contacts (paginate page limit cs)) <= Z.to_nat limit)%nat
  /\ (1 <= page <= total_pages n limit -> contacts (paginate page limit cs) <> [])
  /\ (total_pages n limit < page -> contacts (paginate page limit cs) = [])
  /\ contacts (paginate 0 limit cs) = [].
Proof.
  intros Hlimit n.
  destruct (total_pages_ceil n limit) as [_ [Hlow Hhigh]]; [unfold n; lia | exact Hlimit |].
  unfold paginate. cbn [total contacts].
  split; [reflexivity|].
  split; [apply py_slice_length; lia|].
  split; [|split].
  - intros [Hfirst Hlast]. rewrite py_slice_nonneg by nia.
    intros Hempty. apply (f_equal (@List.length vcard)) in Hempty.
    rewrite length_firstn, length_skipn in Hempty. simpl in Hempty.
    unfold n in *. nia.
  - intros Hbeyond. rewrite py_slice_nonneg by nia.
    rewrite skipn_all2 by (unfold n in *; nia). apply firstn_nil.
  - unfold py_slice, slice_index. fold n.
    destruct (Z.ltb_spec ((0 - 1) * limit) 0); [|lia].
    destruct (Z.ltb_spec ((0 - 1) * limit + limit) 0); [lia|].
    replace (Z.to_nat _) with 0%nat by lia. reflexivity.
Qed.

Lemma pages_within_and_beyond_bounds_witness :
  0 < 2
  /\ contacts (paginate 3 2 folder_contacts) = []
  /\ contacts (paginate 0 2 folder_contacts) = [].
Proof.
  split; [lia|].
  destruct (pages_within_and_beyond_bounds folder_contacts 2 3) as (_ & _ & _ & Hbeyond & Hzero);
    [lia|].
  split; [apply Hbeyond; vm_compute; reflexivity | exact Hzero].
Defined.

(** X19: The page count the widget shows and the page count [list_contacts]
    prints for the limit of 30 differ only on an empty result: the widget
    shows the larger of 1 and the other. *)
Theorem widget_page_count (n : Z) :
  0 <= n ->
  widget_total_pages n = Z.max 1 (total_pages n 30)
  /\ (0 < n -> widget_total_pages n = total_pages n 30).
Proof.
  intros Hn. unfold widget_total_pages, total_pages. cbn [Z.eqb].
  replace (n + 30 - 1) with (n + 29) by lia.
  destruct (Z.eqb_spec n 0) as [->|Hpos]; [split; [reflexivity | lia]|].
  assert (1 <= (n + 29) / 30) by (apply Z.div_le_lower_bound; lia).
  split; lia.
Qed.

Lemma widget_page_count_witness :
  0 <= 31 /\ widget_total_pages 31 = Z.max 1 (total_pages 31 30).
Proof.
  split; [lia|]. destruct (widget_page_count 31) as [Hmax _]; [lia | exact Hmax].
Defined.

(** ** Creating an event and reading it back *)







(** ** What a decoded VCard record can hold *)















